(** * network_monitor.py: a shallow embedding and its verified properties

    The monitor probes a list of web sites, DNS servers and TCP ports on a
    fixed cadence, stores the readings in the global dictionary [results],
    rewrites a CSV report and a chart after every cycle, and stops when
    the duration budget is used up.

    The program is almost entirely input and output, so the embedding is a
    state-and-exception monad over

    - the program's own global [results], and
    - a [World]: the system clock, the chronological log of every call
      made to an imported library, and the files written so far.

    What the outside world answers is fixed by an environment [Env]: the
    answer to the call made at step [n] (the length of the log at that
    moment) and the time that call takes.  Python floats are idealised as
    rationals: no property below depends on rounding. *)

From Stdlib Require Import QArith Qround Lqa ZArith List String Ascii DecimalString.
From stdpp Require Import gmap strings list sorting.

Open Scope Z_scope.
Open Scope string_scope.
Open Scope list_scope.

(** ** Exceptions *)

(** The exception classes of the imported libraries that the program
    names or can meet, with their base classes as the libraries declare
    them ([requests.exceptions], [socket], [speedtest]). *)
Inductive exn : Type :=
  | BaseException | KeyboardInterrupt | Exception
  | LookupError | KeyError | IndexError | ValueError
  | OSError | socket_herror | socket_gaierror | TimeoutError
  | ConnectionError | ConnectionRefusedError
  | RequestException | requests_HTTPError | requests_ConnectionError
  | requests_SSLError | requests_Timeout | requests_ConnectTimeout
  | requests_ReadTimeout | requests_TooManyRedirects
  | requests_MissingSchema | requests_InvalidURL
  | SpeedtestException | SpeedtestHTTPError | SpeedtestConfigError
  | ConfigRetrievalError | ServersRetrievalError | NoMatchedServers
  | SpeedtestBestServerFailure | SpeedtestMissingBestServer.

#[global] Instance exn_eq_dec : EqDecision exn.
Proof. solve_decision. Defined.

Definition bases (e : exn) : list exn :=
  match e with
  | BaseException => []
  | KeyboardInterrupt => [BaseException]
  | Exception => [BaseException]
  | LookupError => [Exception]
  | KeyError => [LookupError]
  | IndexError => [LookupError]
  | ValueError => [Exception]
  | OSError => [Exception]
  | socket_herror => [OSError]
  | socket_gaierror => [OSError]
  | TimeoutError => [OSError]
  | ConnectionError => [OSError]
  | ConnectionRefusedError => [ConnectionError]
  | RequestException => [OSError]
  | requests_HTTPError => [RequestException]
  | requests_ConnectionError => [RequestException]
  | requests_SSLError => [requests_ConnectionError]
  | requests_Timeout => [RequestException]
  | requests_ConnectTimeout => [requests_ConnectionError; requests_Timeout]
  | requests_ReadTimeout => [requests_Timeout]
  | requests_TooManyRedirects => [RequestException]
  | requests_MissingSchema => [RequestException; ValueError]
  | requests_InvalidURL => [RequestException; ValueError]
  | SpeedtestException => [Exception]
  | SpeedtestHTTPError => [SpeedtestException]
  | SpeedtestConfigError => [SpeedtestException]
  | ConfigRetrievalError => [SpeedtestHTTPError]
  | ServersRetrievalError => [SpeedtestHTTPError]
  | NoMatchedServers => [SpeedtestException]
  | SpeedtestBestServerFailure => [SpeedtestException]
  | SpeedtestMissingBestServer => [SpeedtestException]
  end.

Fixpoint issubclass (depth : nat) (e cls : exn) : bool :=
  bool_decide (e = cls) ||
  match depth with
  | O => false
  | S d => existsb (fun b => issubclass d b cls) (bases e)
  end.

(** [except cls:] catches [e] when the class of [e] is [cls] or derives
    from it; no chain of base classes is longer than six. *)
Definition isinstance (e cls : exn) : bool := issubclass 6 e cls.

(** [socket.error] is an alias of [OSError]. *)
Definition socket_error : exn := OSError.

(** ** Values *)

(** A [datetime] as [strftime] sees it. *)
Record datetime : Type := mk_datetime {
  year : nat; month : nat; day : nat;
  hour : nat; minute : nat; second : nat
}.

Definition digit (n : nat) : ascii := ascii_of_nat (48 + n mod 10).

Definition pad2 (n : nat) : string :=
  String (digit (n / 10)) (String (digit n) EmptyString).

Definition pad4 (n : nat) : string := pad2 (n / 100) ++ pad2 (n mod 100).

(** [strftime("%Y-%m-%d %H:%M:%S")] *)
Definition strftime (d : datetime) : string :=
  pad4 (year d) ++ "-" ++ pad2 (month d) ++ "-" ++ pad2 (day d) ++ " " ++
  pad2 (hour d) ++ ":" ++ pad2 (minute d) ++ ":" ++ pad2 (second d).

(** The [requests.Response] fields the program reads. *)
Record response : Type := mk_response { status_code : Z }.

(** A value handed to [csv.writer.writerow], before the writer turns it
    into text with [str]. *)
Inductive cell : Type :=
  | CStr (s : string)
  | CFloat (q : Q)
  | CBool (b : bool).

(** A number handed to [plt.plot]: [np.nan] or a float. *)
Inductive plotval : Type :=
  | NaN
  | Val (q : Q).

Record line : Type := mk_line {
  line_label : string;
  line_x : list string;
  line_y : list plotval
}.

Record panel : Type := mk_panel {
  panel_title : string;
  panel_lines : list line
}.

Inductive file : Type :=
  | CsvFile (rows : list (list cell))
  | PngFile (panels : list panel).

(** ** Calls to the imported libraries *)

Inductive sock_type : Type := SOCK_STREAM | SOCK_DGRAM.

Inductive call : Type :=
  | time_time
  | datetime_now
  | requests_get (url : string) (timeout : Z)
  | socket_socket (ty : sock_type)
  | sock_settimeout (t : Z)
  | socket_gethostbyaddr (addr : string)
  | sock_connect_ex (host : string) (port : Z)
  | sock_close
  | speedtest_Speedtest
  | st_get_best_server
  | st_download
  | st_upload
  | open_w (path : string)
  | writer_writerow (path : string) (row : list cell)
  | plt_savefig (path : string)
  | asyncio_sleep (secs : Z).

(** ** Outcomes, the world and the program state *)

Inductive res (A : Type) : Type :=
  | Returned (a : A)
  | Raised (e : exn).
Arguments Returned {A} a.
Arguments Raised {A} e.

(** The global [results]. *)
Record Results : Type := mk_Results {
  timestamp : list string;
  site_latencies : gmap string (list (option Q));
  dns_times : gmap string (list (option Q));
  port_status : gmap Z (list bool);
  download_speed : list (option Q);
  upload_speed : list (option Q)
}.

Record World : Type := mk_World {
  now : Q;
  log : list call;
  files : gmap string file
}.

Record State : Type := mk_State {
  results : Results;
  world : World
}.

(** What the outside world does: how long the call at step [n] takes,
    how the clock reads as local time, and what each library call made at
    step [n] answers. *)
Record Env : Type := mk_Env {
  delay : nat -> Q;
  localtime : Q -> datetime;
  get_answer : nat -> string -> res response;
  socket_answer : nat -> res unit;
  gethostbyaddr_answer : nat -> string -> res unit;
  connect_ex_answer : nat -> string -> Z -> res Z;
  Speedtest_answer : nat -> res unit;
  get_best_server_answer : nat -> res unit;
  download_answer : nat -> res Q;
  upload_answer : nat -> res Q
}.

(** The configuration constants at the head of the module. *)
Record Config : Type := mk_Config {
  SITES : list string;
  DNS_SERVERS : list string;
  PORTS : list Z;
  INTERVAL : Z;
  OUTPUT_CSV : string;
  DURATION : Z
}.

Definition source_config : Config := {|
  SITES := [ "https://www.google.com";
             "https://www.office.com";
             "https://chat.google.com";
             "https://www.canva.com/es_es/";
             "https://us04web.zoom.us/s";
             "https://presencial.uagrm.edu.bo/";
             "https://virtual.uagrm.edu.bo/";
             "https://meet.google.com" ];
  DNS_SERVERS := [ "172.21.1.7"; "8.8.8.8" ];
  PORTS := [ 80; 443; 3389 ];
  INTERVAL := 180;
  OUTPUT_CSV := "network_monitoring_report.csv";
  DURATION := 1800
|}.

(** ** The monad *)

Definition M (A : Type) : Type := State -> res A * State.

Definition ret {A} (a : A) : M A := fun s => (Returned a, s).

Definition raise {A} (e : exn) : M A := fun s => (Raised e, s).

Definition bind {A B} (m : M A) (k : A -> M B) : M B :=
  fun s =>
    match m s with
    | (Returned a, s') => k a s'
    | (Raised e, s') => (Raised e, s')
    end.

Notation "'let*' x ':=' m 'in' k" := (bind m (fun x => k))
  (at level 10, x name, m at level 100, k at level 200).
Notation "m ';;;' k" := (bind m (fun _ => k))
  (at level 100, k at level 200, right associativity).

(** [try: body / except cls: handler] *)
Definition try_except {A} (body : M A) (cls : exn) (handler : M A) : M A :=
  fun s =>
    match body s with
    | (Raised e, s') => if isinstance e cls then handler s' else (Raised e, s')
    | r => r
    end.

(** [for x in l: body x] *)
Fixpoint for_each {A} (l : list A) (body : A -> M unit) : M unit :=
  match l with
  | [] => ret tt
  | x :: l' => body x ;;; for_each l' body
  end.

Definition get_results : M Results := fun s => (Returned (results s), s).

Definition set_results (r : Results) : M unit :=
  fun s => (Returned tt, {| results := r; world := world s |}).

(** [d[k]] and [l[i]] *)
Definition getitem `{Lookup K V D} (e : exn) (d : D) (k : K) : M V :=
  match d !! k with
  | Some v => ret v
  | None => raise e
  end.

Definition Qltb (x y : Q) : bool := negb (Qle_bool y x).

Definition py_truthy (q : Q) : bool := negb (Qeq_bool q 0).

(** [x or d] for a float-or-[None] [x] and a string [d]: Python yields
    [d] whenever [x] is falsy, and both [None] and [0.0] are falsy. *)
Definition py_or (x : option Q) (d : string) : cell :=
  match x with
  | Some q => if py_truthy q then CFloat q else CStr d
  | None => CStr d
  end.

(** [str(n)] for an int. *)
Definition str_int (n : Z) : string := NilZero.string_of_int (Z.to_int n).

(** [v if v is not None else np.nan] *)
Definition nan_of (v : option Q) : plotval :=
  match v with
  | Some q => Val q
  | None => NaN
  end.

Definition set_timestamp (v : list string) (r : Results) : Results :=
  mk_Results v (site_latencies r) (dns_times r) (port_status r)
             (download_speed r) (upload_speed r).
Definition set_site_latencies (v : gmap string (list (option Q))) (r : Results) : Results :=
  mk_Results (timestamp r) v (dns_times r) (port_status r)
             (download_speed r) (upload_speed r).
Definition set_dns_times (v : gmap string (list (option Q))) (r : Results) : Results :=
  mk_Results (timestamp r) (site_latencies r) v (port_status r)
             (download_speed r) (upload_speed r).
Definition set_port_status (v : gmap Z (list bool)) (r : Results) : Results :=
  mk_Results (timestamp r) (site_latencies r) (dns_times r) v
             (download_speed r) (upload_speed r).
Definition set_download_speed (v : list (option Q)) (r : Results) : Results :=
  mk_Results (timestamp r) (site_latencies r) (dns_times r) (port_status r)
             v (upload_speed r).
Definition set_upload_speed (v : list (option Q)) (r : Results) : Results :=
  mk_Results (timestamp r) (site_latencies r) (dns_times r) (port_status r)
             (download_speed r) v.

(** [{k: [] for k in keys}] *)
Definition empty_columns `{Countable K} {V} (keys : list K) : gmap K (list V) :=
  list_to_map (map (fun k => (k, [])) keys).

(** [for x in l], threading a local variable. *)
Fixpoint fold_each {A B} (l : list A) (acc : B) (body : B -> A -> M B) : M B :=
  match l with
  | [] => ret acc
  | x :: l' => let* acc' := body acc x in fold_each l' acc' body
  end.

(** ** The program *)

Section Program.

Context (E : Env) (cfg : Config).

(** One call to an imported library: it takes [delay E n] seconds, is
    appended to the log, and answers as the environment says. *)
Definition perform {A} (c : call) (answer : nat -> Q -> res A) : M A :=
  fun s =>
    let w := world s in
    let n := length (log w) in
    let t := (now w + delay E n)%Q in
    (answer n t,
     {| results := results s;
        world := {| now := t; log := log w ++ [c]; files := files w |} |}).

Definition update_files (f : gmap string file -> gmap string file) : M unit :=
  fun s =>
    let w := world s in
    (Returned tt,
     {| results := results s;
        world := {| now := now w; log := log w; files := f (files w) |} |}).

Definition py_time_time : M Q :=
  perform time_time (fun _ t => Returned t).

Definition py_datetime_now : M datetime :=
  perform datetime_now (fun _ t => Returned (localtime E t)).

Definition py_requests_get (url : string) (timeout : Z) : M response :=
  perform (requests_get url timeout) (fun n _ => get_answer E n url).

Definition py_socket (ty : sock_type) : M unit :=
  perform (socket_socket ty) (fun n _ => socket_answer E n).

Definition py_settimeout (t : Z) : M unit :=
  perform (sock_settimeout t) (fun _ _ => Returned tt).

Definition py_gethostbyaddr (addr : string) : M unit :=
  perform (socket_gethostbyaddr addr) (fun n _ => gethostbyaddr_answer E n addr).

Definition py_connect_ex (host : string) (port : Z) : M Z :=
  perform (sock_connect_ex host port) (fun n _ => connect_ex_answer E n host port).

Definition py_close : M unit :=
  perform sock_close (fun _ _ => Returned tt).

Definition py_Speedtest : M unit :=
  perform speedtest_Speedtest (fun n _ => Speedtest_answer E n).

Definition py_get_best_server : M unit :=
  perform st_get_best_server (fun n _ => get_best_server_answer E n).

Definition py_download : M Q :=
  perform st_download (fun n _ => download_answer E n).

Definition py_upload : M Q :=
  perform st_upload (fun n _ => upload_answer E n).

(** [open(path, mode='w')]: the file is created or truncated. *)
Definition py_open_w (path : string) : M unit :=
  perform (open_w path) (fun _ _ => Returned tt) ;;;
  update_files (fun fs => <[path := CsvFile []]> fs).

(** [writer.writerow(row)] on the writer of the file at [path]. *)
Definition py_writerow (path : string) (row : list cell) : M unit :=
  perform (writer_writerow path row) (fun _ _ => Returned tt) ;;;
  update_files (fun fs =>
    match fs !! path with
    | Some (CsvFile rows) => <[path := CsvFile (rows ++ [row])]> fs
    | _ => fs
    end).

(** [plt.plot(x, y, label=...)]: matplotlib refuses [x] and [y] of
    different lengths. *)
Definition plt_plot (x : list string) (y : list plotval) (label : string) : M line :=
  if bool_decide (length x = length y)
  then ret (mk_line label x y)
  else raise ValueError.

Definition plt_savefig_ (path : string) (panels : list panel) : M unit :=
  perform (plt_savefig path) (fun _ _ => Returned tt) ;;;
  update_files (fun fs => <[path := PngFile panels]> fs).

(** [await asyncio.sleep(secs)]: the clock moves on by [secs] (a
    negative value counts as none) and by the time the call itself takes. *)
Definition py_sleep (secs : Z) : M unit :=
  fun s =>
    let w := world s in
    perform (asyncio_sleep secs) (fun _ _ => Returned tt)
      {| results := results s;
         world := {| now := (now w + inject_Z (Z.max secs 0))%Q;
                     log := log w; files := files w |} |}.

Definition check_site (site : string) : M (option Q) :=
  try_except
    (let* start_time := py_time_time in
     let* response := py_requests_get site 5 in
     let* t := py_time_time in
     let latency := ((t - start_time) * 1000)%Q in
     ret (if (status_code response =? 200)%Z then Some latency else None))
    RequestException
    (ret None).

Definition check_dns (dns_server : string) : M (option Q) :=
  try_except
    (py_socket SOCK_DGRAM ;;;
     py_settimeout 2 ;;;
     let* start_time := py_time_time in
     py_gethostbyaddr dns_server ;;;
     let* t := py_time_time in
     ret (Some ((t - start_time) * 1000)%Q))
    socket_error
    (ret None).

Definition check_port (host : string) (port : Z) : M bool :=
  try_except
    (py_socket SOCK_STREAM ;;;
     py_settimeout 2 ;;;
     let* result := py_connect_ex host port in
     py_close ;;;
     ret (result =? 0)%Z)
    socket_error
    (ret false).

Definition measure_speed : M (option Q * option Q) :=
  try_except
    (py_Speedtest ;;;
     py_get_best_server ;;;
     let* d := py_download in
     let download := (d / 1000000)%Q in
     let* u := py_upload in
     let upload := (u / 1000000)%Q in
     ret (Some download, Some upload))
    SpeedtestException
    (ret (None, None)).

Definition headers : list cell :=
  map CStr
    (["Timestamp"] ++ map (fun site => "Latency_" +:+ site) (SITES cfg) ++
     map (fun dns => "DNS_" +:+ dns) (DNS_SERVERS cfg) ++
     map (fun port => "Port_" +:+ str_int port) (PORTS cfg) ++
     ["Download_Speed"; "Upload_Speed"]).

(** The body of [for i in range(len(results["timestamp"]))] up to the
    final [writerow]. *)
Definition csv_row (i : nat) : M (list cell) :=
  let* r := get_results in
  let* ts := getitem IndexError (timestamp r) i in
  let row := [CStr ts] in
  let* row := fold_each (SITES cfg) row (fun row site =>
    let* col := getitem KeyError (site_latencies r) site in
    let* v := getitem IndexError col i in
    ret (row ++ [py_or v "N/A"])) in
  let* row := fold_each (DNS_SERVERS cfg) row (fun row dns =>
    let* col := getitem KeyError (dns_times r) dns in
    let* v := getitem IndexError col i in
    ret (row ++ [py_or v "N/A"])) in
  let* row := fold_each (PORTS cfg) row (fun row port =>
    let* col := getitem KeyError (port_status r) port in
    let* v := getitem IndexError col i in
    ret (row ++ [CBool v])) in
  let* d := getitem IndexError (download_speed r) i in
  let row := row ++ [py_or d "N/A"] in
  let* u := getitem IndexError (upload_speed r) i in
  let row := row ++ [py_or u "N/A"] in
  ret row.

Definition save_to_csv : M unit :=
  py_open_w (OUTPUT_CSV cfg) ;;;
  py_writerow (OUTPUT_CSV cfg) headers ;;;
  let* r := get_results in
  for_each (seq 0 (length (timestamp r))) (fun i =>
    let* row := csv_row i in
    py_writerow (OUTPUT_CSV cfg) row).

Definition plot_results : M unit :=
  let* r := get_results in
  let* lines1 := fold_each (SITES cfg) [] (fun lines site =>
    let* col := getitem KeyError (site_latencies r) site in
    let latencies := map nan_of col in
    let* l := plt_plot (timestamp r) latencies site in
    ret (lines ++ [l])) in
  let* lines2 := fold_each (DNS_SERVERS cfg) [] (fun lines dns =>
    let* col := getitem KeyError (dns_times r) dns in
    let times := map nan_of col in
    let* l := plt_plot (timestamp r) times ("DNS " +:+ dns) in
    ret (lines ++ [l])) in
  let download_speeds := map nan_of (download_speed r) in
  let upload_speeds := map nan_of (upload_speed r) in
  let* l1 := plt_plot (timestamp r) download_speeds "Descarga (Mbps)" in
  let* l2 := plt_plot (timestamp r) upload_speeds "Subida (Mbps)" in
  plt_savefig_ "network_monitoring_plot.png"
    [ mk_panel "Latencia de Sitios Web (ms)" lines1;
      mk_panel "Tiempo de Resolución DNS (ms)" lines2;
      mk_panel "Velocidad de Red" [l1; l2] ].

(** The probing part of the loop body (lines 149 to 173 of the source). *)
Definition cycle : M unit :=
  let* dt := py_datetime_now in
  let current_time := strftime dt in
  (let* r := get_results in
   set_results (set_timestamp (timestamp r ++ [current_time]) r)) ;;;
  for_each (SITES cfg) (fun site =>
    let* latency := check_site site in
    let* r := get_results in
    let* col := getitem KeyError (site_latencies r) site in
    set_results (set_site_latencies (<[site := col ++ [latency]]> (site_latencies r)) r)) ;;;
  for_each (DNS_SERVERS cfg) (fun dns =>
    let* dns_time := check_dns dns in
    let* r := get_results in
    let* col := getitem KeyError (dns_times r) dns in
    set_results (set_dns_times (<[dns := col ++ [dns_time]]> (dns_times r)) r)) ;;;
  for_each (PORTS cfg) (fun port =>
    let* status := check_port "example.com" port in
    let* r := get_results in
    let* col := getitem KeyError (port_status r) port in
    set_results (set_port_status (<[port := col ++ [status]]> (port_status r)) r)) ;;;
  let* r := get_results in
  let* speeds :=
    (if (Z.of_nat (length (timestamp r)) mod 3 =? 0)%Z
     then measure_speed
     else ret (None, None)) in
  let download := fst speeds in
  let upload := snd speeds in
  (let* r := get_results in
   set_results (set_download_speed (download_speed r ++ [download]) r)) ;;;
  (let* r := get_results in
   set_results (set_upload_speed (upload_speed r ++ [upload]) r)).

(** The whole loop body. *)
Definition iteration : M unit :=
  cycle ;;;
  save_to_csv ;;;
  plot_results ;;;
  py_sleep (INTERVAL cfg).

(** [while time.time() - start_time < DURATION: ...].  [fuel] bounds the
    number of times the loop test is evaluated; [None] means the bound
    was reached with the loop still running. *)
Fixpoint main_loop (fuel : nat) (start_time : Q) (s : State)
  : option (res unit * State) :=
  match fuel with
  | O => None
  | S fuel' =>
      match py_time_time s with
      | (Returned t, s1) =>
          if Qltb (t - start_time) (inject_Z (DURATION cfg))
          then match iteration s1 with
               | (Returned _, s2) => main_loop fuel' start_time s2
               | (Raised e, s2) => Some (Raised e, s2)
               end
          else Some (Returned tt, s1)
      | (Raised e, s1) => Some (Raised e, s1)
      end
  end.

Definition main (fuel : nat) (s : State) : option (res unit * State) :=
  match py_time_time s with
  | (Returned start_time, s0) => main_loop fuel start_time s0
  | (Raised e, s0) => Some (Raised e, s0)
  end.

(** The module-level initialisation of [results]. *)
Definition initial_results : Results := {|
  timestamp := [];
  site_latencies := empty_columns (SITES cfg);
  dns_times := empty_columns (DNS_SERVERS cfg);
  port_status := empty_columns (PORTS cfg);
  download_speed := [];
  upload_speed := []
|}.

End Program.

(** The world when the program starts, with the clock reading [t0]. *)
Definition initial_world (t0 : Q) : World :=
  {| now := t0; log := []; files := ∅ |}.

Definition initial_state (cfg : Config) (t0 : Q) : State :=
  {| results := initial_results cfg; world := initial_world t0 |}.

(** ** What the imported libraries promise *)

(** Each library documents the exceptions its calls raise: [requests]
    raises subclasses of [RequestException], the [socket] module
    subclasses of [OSError], and [speedtest] subclasses of
    [SpeedtestException]. *)
Record LibraryContract (E : Env) : Prop := {
  get_raises : forall n url e,
    get_answer E n url = Raised e -> isinstance e RequestException = true;
  socket_raises : forall n e,
    socket_answer E n = Raised e -> isinstance e socket_error = true;
  gethostbyaddr_raises : forall n addr e,
    gethostbyaddr_answer E n addr = Raised e -> isinstance e socket_error = true;
  connect_ex_raises : forall n host port e,
    connect_ex_answer E n host port = Raised e -> isinstance e socket_error = true;
  Speedtest_raises : forall n e,
    Speedtest_answer E n = Raised e -> isinstance e SpeedtestException = true;
  get_best_server_raises : forall n e,
    get_best_server_answer E n = Raised e -> isinstance e SpeedtestException = true;
  download_raises : forall n e,
    download_answer E n = Raised e -> isinstance e SpeedtestException = true;
  upload_raises : forall n e,
    upload_answer E n = Raised e -> isinstance e SpeedtestException = true
}.

(** ** Sample environments *)

(** A wall clock for the examples: the seconds since local midnight of
    2025-01-01, stopping at 23:59:59. *)
Definition clock_face (t : Q) : datetime :=
  let secs := Z.min (Z.max 0 (Qfloor t)) 86399 in
  mk_datetime 2025 1 1
    (Z.to_nat (secs / 3600))
    (Z.to_nat ((secs / 60) mod 60))
    (Z.to_nat (secs mod 60)).

(** An environment in which every call takes [d] seconds, every site
    answers 200, every lookup and connection succeeds, and the speed test
    measures [down] and [up] bits per second ([None]: the measurement
    fails). *)
Definition steady_env (d : Q) (down up : option Q) : Env := {|
  delay := fun _ => d;
  localtime := clock_face;
  get_answer := fun _ _ => Returned (mk_response 200);
  socket_answer := fun _ => Returned tt;
  gethostbyaddr_answer := fun _ _ => Returned tt;
  connect_ex_answer := fun _ _ _ => Returned 0;
  Speedtest_answer := fun _ => Returned tt;
  get_best_server_answer := fun _ => Returned tt;
  download_answer := fun _ =>
    match down with
    | Some q => Returned q
    | None => Raised SpeedtestBestServerFailure
    end;
  upload_answer := fun _ =>
    match up with
    | Some q => Returned q
    | None => Raised SpeedtestHTTPError
    end
|}.

(** Calls that take no time, on a 50 Mbps down, 10 Mbps up link. *)
Definition calm_env : Env :=
  steady_env 0 (Some (50000000 # 1)%Q) (Some (10000000 # 1)%Q).


(** The scenario of the specification: one site, a one second interval
    and a three second budget. *)
Definition scenario_config : Config := {|
  SITES := [ "https://example.com" ];
  DNS_SERVERS := [];
  PORTS := [];
  INTERVAL := 1;
  OUTPUT_CSV := "network_monitoring_report.csv";
  DURATION := 3
|}.

Lemma steady_env_contract d down up : LibraryContract (steady_env d down up).
Proof.
  split; simpl; intros; try discriminate.
  - destruct down; [discriminate|]. by injection H as <-.
  - destruct up; [discriminate|]. by injection H as <-.
Qed.


(** ** The probes *)

Lemma length_snoc {A} (l : list A) (x : A) : length (l ++ [x]) = S (length l).
Proof. rewrite length_app. simpl. lia. Qed.

Section Probes.

Context (E : Env).



(** C5.  Under the contract of [speedtest], [measure_speed] always
    returns, and its result is never partial: both values are numbers
    (the two measurements divided by a million) when all four calls
    succeed, and both are [None] when any of them fails. *)
Theorem measure_speed_both_or_neither (s : State) (HC : LibraryContract E) :
  let n := length (log (world s)) in
  let all_ok :=
    exists d u,
      Speedtest_answer E n = Returned tt /\
      get_best_server_answer E (S n) = Returned tt /\
      download_answer E (S (S n)) = Returned d /\
      upload_answer E (S (S (S n))) = Returned u /\
      fst (measure_speed E s) =
        Returned (Some (d / 1000000)%Q, Some (u / 1000000)%Q) in
  (all_ok \/ fst (measure_speed E s) = Returned (None, None)) /\
  (fst (measure_speed E s) = Returned (None, None) -> ~ all_ok).
Proof.
  intros n all_ok. subst all_ok.
  unfold measure_speed, try_except, bind, py_Speedtest, py_get_best_server,
    py_download, py_upload, perform, ret.
  cbn [world log now results fst snd]. fold n.
  destruct (Speedtest_answer E n) as [[]|e] eqn:H1.
  2:{ rewrite (Speedtest_raises E HC _ _ H1). split; [by right|].
      intros _ (d & u & [=] & _). }
  cbn [world log now results fst snd]. rewrite ?length_snoc; fold n.
  destruct (get_best_server_answer E (S n)) as [[]|e] eqn:H2.
  2:{ rewrite (get_best_server_raises E HC _ _ H2). split; [by right|].
      intros _ (d & u & _ & [=] & _). }
  cbn [world log now results fst snd]. rewrite ?length_snoc; fold n.
  destruct (download_answer E (S (S n))) as [d|e] eqn:H3.
  2:{ rewrite (download_raises E HC _ _ H3). split; [by right|].
      intros _ (d & u & _ & _ & [=] & _). }
  cbn [world log now results fst snd]. rewrite ?length_snoc; fold n.
  destruct (upload_answer E (S (S (S n)))) as [u|e] eqn:H4.
  2:{ rewrite (upload_raises E HC _ _ H4). split; [by right|].
      intros _ (d' & u & _ & _ & _ & [=] & _). }
  cbn [fst]. split.
  - left. exists d, u. done.
  - discriminate.
Qed.

End Probes.

(** ** A program logic for the monad *)

(** The calls that the properties below observe: connection attempts,
    the start of a speed test, and the waits between cycles. *)
Definition notable (c : call) : bool :=
  match c with
  | sock_connect_ex _ _ | speedtest_Speedtest | asyncio_sleep _ => true
  | _ => false
  end.

Definition observed (evs : list call) : list call := List.filter notable evs.

(** The time a call asks the clock to skip. *)
Definition nap (c : call) : Q :=
  match c with
  | asyncio_sleep secs => inject_Z (Z.max secs 0)
  | _ => 0%Q
  end.

Fixpoint naps (evs : list call) : Q :=
  match evs with
  | [] => 0%Q
  | c :: evs' => (nap c + naps evs')%Q
  end.

Section Logic.

Context (E : Env).

(** The time taken by the calls [evs] when the first is made at step [k]. *)
Fixpoint elapsed (k : nat) (evs : list call) : Q :=
  match evs with
  | [] => 0%Q
  | c :: evs' => (nap c + delay E k + elapsed (S k) evs')%Q
  end.

(** From [s] to [s'] the program made exactly the calls [evs], and the
    clock moved by the time they take. *)
Record runs (s s' : State) (evs : list call) : Prop := {
  runs_log : log (world s') = log (world s) ++ evs;
  runs_now : (now (world s') ==
              now (world s) + elapsed (length (log (world s))) evs)%Q
}.

(** [wp m s Q]: run from [s], [m] ends (by returning or by raising) in a
    state reached by some calls [evs], and [Q] holds of the outcome, the
    final state and those calls. *)
Definition wp {A} (m : M A) (s : State)
  (Q : res A -> State -> list call -> Prop) : Prop :=
  exists evs, runs s (snd (m s)) evs /\ Q (fst (m s)) (snd (m s)) evs.

Lemma elapsed_app k evs1 evs2 :
  (elapsed k (evs1 ++ evs2) ==
   elapsed k evs1 + elapsed (k + length evs1) evs2)%Q.
Proof.
  revert k. induction evs1 as [|c evs1 IH]; intros k; simpl.
  - rewrite Nat.add_0_r. lra.
  - rewrite IH. replace (S k + length evs1)%nat with (k + S (length evs1))%nat by lia.
    lra.
Qed.

Lemma runs_refl s : runs s s [].
Proof. split; simpl; [by rewrite app_nil_r | lra]. Qed.

Lemma runs_trans s1 s2 s3 evs1 evs2 :
  runs s1 s2 evs1 -> runs s2 s3 evs2 -> runs s1 s3 (evs1 ++ evs2).
Proof.
  intros [L1 N1] [L2 N2]. split.
  - by rewrite L2, L1, app_assoc.
  - rewrite N2, N1, L1, length_app, elapsed_app. lra.
Qed.

Lemma wp_mono {A} (m : M A) s (Q Q' : res A -> State -> list call -> Prop) :
  wp m s Q -> (forall r s' evs, runs s s' evs -> Q r s' evs -> Q' r s' evs) ->
  wp m s Q'.
Proof. intros (evs & Hr & HQ) H. exists evs. eauto. Qed.

Lemma wp_ret {A} (a : A) s (Q : res A -> State -> list call -> Prop) :
  Q (Returned a) s [] -> wp (ret a) s Q.
Proof. intros HQ. exists []. split; [apply runs_refl | exact HQ]. Qed.

Lemma wp_raise {A} (e : exn) s (Q : res A -> State -> list call -> Prop) :
  Q (Raised e) s [] -> wp (raise e) s Q.
Proof. intros HQ. exists []. split; [apply runs_refl | exact HQ]. Qed.

Lemma wp_bind {A B} (m : M A) (k : A -> M B) s
  (Q : res B -> State -> list call -> Prop) :
  wp m s (fun r s1 evs1 =>
    match r with
    | Returned a => wp (k a) s1 (fun r2 s2 evs2 => Q r2 s2 (evs1 ++ evs2))
    | Raised e => Q (Raised e) s1 evs1
    end) ->
  wp (bind m k) s Q.
Proof.
  intros (evs1 & Hr1 & H). unfold wp, bind.
  destruct (m s) as [[a|e] s1]; simpl in *.
  - destruct H as (evs2 & Hr2 & HQ). exists (evs1 ++ evs2).
    split; [eapply runs_trans; eauto | exact HQ].
  - exists evs1. split; assumption.
Qed.

Lemma wp_try {A} (body : M A) cls (handler : M A) s
  (Q : res A -> State -> list call -> Prop) :
  wp body s (fun r s1 evs1 =>
    match r with
    | Returned a => Q (Returned a) s1 evs1
    | Raised e =>
        if isinstance e cls
        then wp handler s1 (fun r2 s2 evs2 => Q r2 s2 (evs1 ++ evs2))
        else Q (Raised e) s1 evs1
    end) ->
  wp (try_except body cls handler) s Q.
Proof.
  intros (evs1 & Hr1 & H). unfold wp, try_except.
  destruct (body s) as [[a|e] s1]; simpl in *.
  - exists evs1. split; assumption.
  - destruct (isinstance e cls).
    + destruct H as (evs2 & Hr2 & HQ). exists (evs1 ++ evs2).
      split; [eapply runs_trans; eauto | exact HQ].
    + exists evs1. split; assumption.
Qed.

(** The state after one call [c] made from [s]. *)
Definition after (c : call) (s : State) : State :=
  {| results := results s;
     world := {| now := (now (world s) + delay E (length (log (world s))))%Q;
                 log := log (world s) ++ [c];
                 files := files (world s) |} |}.

Lemma wp_perform {A} (c : call) (answer : nat -> Q -> res A) s
  (Q : res A -> State -> list call -> Prop) :
  nap c = 0%Q ->
  Q (answer (length (log (world s)))
            (now (world s) + delay E (length (log (world s))))%Q)
    (after c s) [c] ->
  wp (perform E c answer) s Q.
Proof.
  intros Hnap HQ. exists [c]. split; [|exact HQ].
  split; simpl; [reflexivity|]. rewrite Hnap. lra.
Qed.

Lemma wp_sleep (secs : Z) s (Q : res unit -> State -> list call -> Prop) :
  (forall s', results s' = results s ->
              files (world s') = files (world s) ->
              Q (Returned tt) s' [asyncio_sleep secs]) ->
  wp (py_sleep E secs) s Q.
Proof.
  intros HQ. exists [asyncio_sleep secs]. split.
  - split; simpl; [reflexivity|]. lra.
  - apply HQ; reflexivity.
Qed.

Lemma wp_update_files f s (Q : res unit -> State -> list call -> Prop) :
  Q (Returned tt)
    {| results := results s;
       world := {| now := now (world s); log := log (world s);
                   files := f (files (world s)) |} |} [] ->
  wp (update_files f) s Q.
Proof.
  intros HQ. exists []. split; [|exact HQ].
  split; simpl; [by rewrite app_nil_r | lra].
Qed.

Lemma wp_get_results s (Q : res Results -> State -> list call -> Prop) :
  Q (Returned (results s)) s [] -> wp get_results s Q.
Proof. intros HQ. exists []. split; [apply runs_refl | exact HQ]. Qed.

Lemma wp_set_results r s (Q : res unit -> State -> list call -> Prop) :
  Q (Returned tt) {| results := r; world := world s |} [] ->
  wp (set_results r) s Q.
Proof.
  intros HQ. exists []. split; [|exact HQ].
  split; simpl; [by rewrite app_nil_r | lra].
Qed.

Lemma wp_getitem `{Lookup K V D} (e : exn) (d : D) (k : K) (v : V) s
  (Q : res V -> State -> list call -> Prop) :
  d !! k = Some v -> Q (Returned v) s [] -> wp (getitem e d k) s Q.
Proof. intros Hk HQ. unfold getitem. rewrite Hk. by apply wp_ret. Qed.

(** A loop whose body always returns: [I done s evs] holds after the
    elements [done] have been processed, in state [s], with calls [evs]
    made since the loop began. *)
Lemma wp_for_each {A} (I : list A -> State -> list call -> Prop)
  (l : list A) (body : A -> M unit) s :
  I [] s [] ->
  (forall done x rest s1 evs1,
     l = done ++ x :: rest -> I done s1 evs1 ->
     wp (body x) s1 (fun r s2 evs2 =>
       r = Returned tt /\ I (done ++ [x]) s2 (evs1 ++ evs2))) ->
  wp (for_each l body) s (fun r s' evs => r = Returned tt /\ I l s' evs).
Proof.
  intros H0 Hstep.
  enough (Hgen : forall rest done s1 evs1,
            l = done ++ rest -> I done s1 evs1 ->
            wp (for_each rest body) s1 (fun r s' evs2 =>
              r = Returned tt /\ I l s' (evs1 ++ evs2))).
  { apply (Hgen l [] s []); [reflexivity | exact H0]. }
  induction rest as [|x rest IH]; intros done s1 evs1 Hl HI.
  - apply wp_ret. rewrite app_nil_r in *. subst. done.
  - simpl. apply wp_bind.
    eapply wp_mono; [apply (Hstep done x rest s1 evs1 Hl HI)|].
    intros r s2 evs2 _ [-> HI2].
    eapply wp_mono; [apply (IH (done ++ [x]) s2 (evs1 ++ evs2))|].
    + by rewrite <- app_assoc.
    + exact HI2.
    + intros r s3 evs3 _ [-> HI3]. by rewrite app_assoc.
Qed.

Lemma wp_with_runs {A} (m : M A) s (Q : res A -> State -> list call -> Prop) :
  wp m s (fun r s' evs => runs s s' evs -> Q r s' evs) -> wp m s Q.
Proof. intros (evs & Hr & HQ). exists evs. auto. Qed.

Lemma nap_nonneg c : (0 <= nap c)%Q.
Proof.
  destruct c; simpl; try lra.
  change 0%Q with (inject_Z 0). rewrite <- Zle_Qle. lia.
Qed.

Lemma naps_app evs1 evs2 : (naps (evs1 ++ evs2) == naps evs1 + naps evs2)%Q.
Proof. induction evs1 as [|c evs1 IH]; simpl; [lra | rewrite IH; lra]. Qed.

Lemma naps_observed evs : (naps (observed evs) == naps evs)%Q.
Proof.
  induction evs as [|c evs IH]; simpl; [lra|].
  destruct c; simpl; rewrite IH; lra.
Qed.

(** With calls that take no time, only the waits move the clock. *)
Lemma elapsed_eq_naps k evs :
  (forall n, delay E n == 0)%Q -> (elapsed k evs == naps evs)%Q.
Proof.
  intros Hz. revert k. induction evs as [|c evs IH]; intros k; simpl; [lra|].
  rewrite IH, Hz. lra.
Qed.

(** The clock never runs slower than the waits. *)
Lemma elapsed_ge_naps k evs :
  (forall n, 0 <= delay E n)%Q -> (naps evs <= elapsed k evs)%Q.
Proof.
  intros Hnn. revert k. induction evs as [|c evs IH]; intros k; simpl; [lra|].
  specialize (IH (S k)). specialize (Hnn k). lra.
Qed.

Lemma elapsed_nonneg k evs :
  (forall n, 0 <= delay E n)%Q -> (0 <= elapsed k evs)%Q.
Proof.
  intros Hnn. revert k. induction evs as [|c evs IH]; intros k; simpl; [lra|].
  specialize (IH (S k)). specialize (Hnn k). pose proof (nap_nonneg c). lra.
Qed.

End Logic.

(** ** The probes, in the program logic *)

Section ProbeSpecs.

Context (E : Env) (HC : LibraryContract E).

(** What every probe guarantees: it returns, and touches neither
    [results] nor the files. *)
Definition probe_post {A} (s : State) (P : A -> list call -> Prop)
  (r : res A) (s' : State) (evs : list call) : Prop :=
  results s' = results s /\ files (world s') = files (world s) /\
  exists v, r = Returned v /\ P v evs.

Ltac call_step :=
  apply wp_bind; apply wp_perform; [reflexivity|]; cbn beta iota.

Ltac probe_done :=
  apply wp_ret; repeat split; try reflexivity; eexists; split;
  [reflexivity | cbn; eauto].

Lemma check_site_spec site s :
  wp E (check_site E site) s
    (probe_post s (fun _ evs => observed evs = [])).
Proof.
  unfold check_site, py_time_time, py_requests_get.
  apply wp_try. call_step. call_step.
  destruct (get_answer E _ site) as [r|e] eqn:Hget.
  - call_step. probe_done.
  - rewrite (get_raises E HC _ _ _ Hget). probe_done.
Qed.

Lemma check_dns_spec dns s :
  wp E (check_dns E dns) s
    (probe_post s (fun _ evs => observed evs = [])).
Proof.
  unfold check_dns, py_socket, py_settimeout, py_time_time, py_gethostbyaddr.
  apply wp_try. call_step.
  destruct (socket_answer E _) as [[]|e] eqn:Hsock.
  2:{ rewrite (socket_raises E HC _ _ Hsock). probe_done. }
  call_step. call_step. call_step.
  destruct (gethostbyaddr_answer E _ dns) as [[]|e] eqn:Hres.
  2:{ rewrite (gethostbyaddr_raises E HC _ _ _ Hres). probe_done. }
  call_step. probe_done.
Qed.

(** [check_port] attempts at most one connection, and to the host and
    port it was given; it attempts one whenever the socket could be
    created. *)
Lemma check_port_spec host port s :
  wp E (check_port E host port) s
    (probe_post s (fun _ evs =>
       (observed evs = [] \/ observed evs = [sock_connect_ex host port]) /\
       ((forall n, socket_answer E n = Returned tt) ->
        observed evs = [sock_connect_ex host port]))).
Proof.
  unfold check_port, py_socket, py_settimeout, py_connect_ex, py_close.
  apply wp_try. call_step.
  destruct (socket_answer E _) as [[]|e] eqn:Hsock.
  2:{ rewrite (socket_raises E HC _ _ Hsock). probe_done.
      split; [by left|]. intros Hok. rewrite Hok in Hsock. discriminate. }
  call_step. call_step.
  destruct (connect_ex_answer E _ host port) as [code|e] eqn:Hconn.
  2:{ rewrite (connect_ex_raises E HC _ _ _ _ Hconn). probe_done. }
  call_step. probe_done.
Qed.

(** [measure_speed] starts exactly one speed test and returns both
    values or neither. *)
Lemma measure_speed_spec s :
  wp E (measure_speed E) s
    (probe_post s (fun v evs =>
       observed evs = [speedtest_Speedtest] /\
       (fst v = None <-> snd v = None))).
Proof.
  unfold measure_speed, py_Speedtest, py_get_best_server, py_download, py_upload.
  apply wp_try. call_step.
  destruct (Speedtest_answer E _) as [[]|e] eqn:H1.
  2:{ rewrite (Speedtest_raises E HC _ _ H1). probe_done. }
  call_step.
  destruct (get_best_server_answer E _) as [[]|e] eqn:H2.
  2:{ rewrite (get_best_server_raises E HC _ _ H2). probe_done. }
  call_step.
  destruct (download_answer E _) as [d|e] eqn:H3.
  2:{ rewrite (download_raises E HC _ _ H3). probe_done. }
  call_step.
  destruct (upload_answer E _) as [u|e] eqn:H4.
  2:{ rewrite (upload_raises E HC _ _ H4). probe_done. }
  probe_done. split; [reflexivity|]. split; discriminate.
Qed.

End ProbeSpecs.

(** ** One column per target *)

(** From [m] to [m'] every column of [keys] gained exactly one entry at
    its end, and no other column changed. *)
Definition col_grows `{Countable K} {V} (keys : list K)
  (m m' : gmap K (list V)) : Prop :=
  (forall k col, k ∈ keys -> m !! k = Some col ->
     exists v, m' !! k = Some (col ++ [v])) /\
  (forall k, k ∉ keys -> m' !! k = m !! k).

Lemma col_grows_nil `{Countable K} {V} (m : gmap K (list V)) : col_grows [] m m.
Proof. split; [intros k col Hk; by apply elem_of_nil in Hk | done]. Qed.

Section Columns.

Context (E : Env) (HC : LibraryContract E).
Context `{Countable K} {V : Type}.
Context (get : Results -> gmap K (list V)).
Context (set : gmap K (list V) -> Results -> Results).
Context (get_set : forall m r, get (set m r) = m).
Context (set_set : forall m m' r, set m' (set m r) = set m' r).
Context (set_get : forall r, set (get r) r = r).

(** The shape shared by the three probing loops of [main]:
    [for k in keys: v = probe(k); results[...][k].append(v)]. *)
Lemma append_loop (keys : list K) (probe : K -> M V)
  (obs : K -> list call -> Prop) (J : list K -> list call -> Prop) s :
  NoDup keys ->
  (forall k, k ∈ keys -> is_Some (get (results s) !! k)) ->
  (forall k s1, wp E (probe k) s1 (probe_post s1 (fun _ evs => obs k evs))) ->
  J [] [] ->
  (forall done k evs1 evs2,
     J done evs1 -> obs k evs2 -> J (done ++ [k]) (evs1 ++ evs2)) ->
  wp E (for_each keys (fun k =>
          let* v := probe k in
          let* r := get_results in
          let* col := getitem KeyError (get r) k in
          set_results (set (<[k := col ++ [v]]> (get r)) r))) s
    (fun r s' evs =>
       r = Returned tt /\ files (world s') = files (world s) /\ J keys evs /\
       exists m', results s' = set m' (results s) /\
                  col_grows keys (get (results s)) m').
Proof.
  intros Hnd Hkeys Hprobe J0 Jstep.
  eapply wp_mono.
  - apply (wp_for_each E (fun done s1 evs =>
      files (world s1) = files (world s) /\ J done evs /\
      exists m', results s1 = set m' (results s) /\
                 col_grows done (get (results s)) m')).
    + split; [reflexivity|]. split; [exact J0|].
      exists (get (results s)). split; [by rewrite set_get | apply col_grows_nil].
    + intros done x rest s1 evs1 Hl (Hf & HJ & m' & Hr & Hg1 & Hg2).
      assert (Hx : x ∉ done).
      { rewrite Hl in Hnd. apply NoDup_app in Hnd as (_ & Hnd & _).
        intros Hin. apply (Hnd x Hin). by left. }
      destruct (Hkeys x) as [col Hcol].
      { rewrite Hl. apply elem_of_app. right. by left. }
      apply wp_bind. eapply wp_mono; [apply Hprobe|].
      intros r s2 evs2 _ (Hr2 & Hf2 & v & -> & Hobs).
      apply wp_bind, wp_get_results. rewrite Hr2, Hr, get_set.
      apply wp_bind. eapply wp_getitem.
      { rewrite (Hg2 x Hx). exact Hcol. }
      apply wp_set_results. split; [reflexivity|]. cbn.
      rewrite !app_nil_r. split; [congruence|]. split; [by apply Jstep|].
      eexists. split; [by rewrite set_set|]. split.
      * intros k c Hk Hc. destruct (decide (k = x)) as [->|Hne].
        -- rewrite lookup_insert_eq. exists v. congruence.
        -- rewrite lookup_insert_ne by done. apply Hg1; [|done].
           apply elem_of_app in Hk as [Hk|Hk]; [done|].
           apply list_elem_of_singleton in Hk. done.
      * intros k Hk. rewrite lookup_insert_ne.
        -- apply Hg2. intros Hin. apply Hk, elem_of_app. by left.
        -- intros ->. apply Hk, elem_of_app. right. by left.
  - intros r s' evs _ (-> & Hf & HJ & Hm). done.
Qed.

End Columns.

(** ** One cycle *)

Lemma observed_app evs1 evs2 :
  observed (evs1 ++ evs2) = observed evs1 ++ observed evs2.
Proof. apply List.filter_app. Qed.

(** The speed test is started in the cycle that makes the series [n]
    long exactly when [n] is a multiple of three. *)
Definition speed_part (n : nat) : list call :=
  if (Z.of_nat n mod 3 =? 0)%Z then [speedtest_Speedtest] else [].

Definition connects (ps : list Z) : list call :=
  map (sock_connect_ex "example.com") ps.

Definition sockets_ok (E : Env) : Prop :=
  forall n, socket_answer E n = Returned tt.

Section Cycle.

Context (E : Env) (cfg : Config) (HC : LibraryContract E).
Context (Hsites : NoDup (SITES cfg)).
Context (Hdns : NoDup (DNS_SERVERS cfg)).
Context (Hports : NoDup (PORTS cfg)).

(** [results] has a column for every configured target. *)
Definition has_columns (r : Results) : Prop :=
  (forall k, k ∈ SITES cfg -> is_Some (site_latencies r !! k)) /\
  (forall k, k ∈ DNS_SERVERS cfg -> is_Some (dns_times r !! k)) /\
  (forall k, k ∈ PORTS cfg -> is_Some (port_status r !! k)).

Record cycle_post (s : State) (r : res unit) (s' : State) (evs : list call)
  : Prop := {
  cp_ret : r = Returned tt;
  cp_files : files (world s') = files (world s);
  cp_timestamp :
    timestamp (results s') =
    timestamp (results s) ++
      [strftime (localtime E
         (now (world s) + delay E (length (log (world s))))%Q)];
  cp_sites :
    col_grows (SITES cfg) (site_latencies (results s))
              (site_latencies (results s'));
  cp_dns :
    col_grows (DNS_SERVERS cfg) (dns_times (results s))
              (dns_times (results s'));
  cp_ports :
    col_grows (PORTS cfg) (port_status (results s))
              (port_status (results s'));
  cp_speed :
    exists d u,
      download_speed (results s') = download_speed (results s) ++ [d] /\
      upload_speed (results s') = upload_speed (results s) ++ [u] /\
      (d = None <-> u = None) /\
      (speed_part (S (length (timestamp (results s)))) = [] ->
       d = None /\ u = None);
  cp_clock :
    (forall n, 0 <= delay E n)%Q ->
    (now (world s) + delay E (length (log (world s))) <= now (world s'))%Q;
  cp_observed :
    exists ps,
      sublist ps (PORTS cfg) /\
      (sockets_ok E -> ps = PORTS cfg) /\
      observed evs =
        connects ps ++ speed_part (S (length (timestamp (results s))))
}.

Lemma cycle_spec s :
  has_columns (results s) ->
  wp E (cycle E cfg) s (cycle_post s).
Proof.
  intros (Hc1 & Hc2 & Hc3). unfold cycle, py_datetime_now.
  apply wp_bind, wp_perform; [reflexivity|]. cbn beta iota.
  set (now0 := strftime _).
  apply wp_with_runs.
  apply wp_bind, wp_bind, wp_get_results, wp_set_results. cbn beta iota.
  (* sites *)
  apply wp_bind. eapply wp_mono.
  { apply (append_loop E site_latencies set_site_latencies)
      with (obs := fun _ evs => observed evs = [])
           (J := fun _ evs => observed evs = []);
      try done.
    - by intros [].
    - intros k s1. apply (check_site_spec E HC).
    - intros done k evs1 evs2 H1 H2. by rewrite observed_app, H1, H2. }
  intros r1 s1 evs1 _ (-> & Hf1 & Ho1 & m1 & Hr1 & Hg1). cbn in Hf1, Hr1, Hg1.
  (* dns *)
  apply wp_bind. eapply wp_mono.
  { apply (append_loop E dns_times set_dns_times)
      with (obs := fun _ evs => observed evs = [])
           (J := fun _ evs => observed evs = []);
      try done.
    - by intros [].
    - rewrite Hr1. exact Hc2.
    - intros k s2. apply (check_dns_spec E HC).
    - intros done k evs1' evs2 H1 H2. by rewrite observed_app, H1, H2. }
  intros r2 s2 evs2 _ (-> & Hf2 & Ho2 & m2 & Hr2 & Hg2).
  rewrite Hr1 in Hr2, Hg2. cbn in Hr2, Hg2.
  (* ports *)
  apply wp_bind. eapply wp_mono.
  { apply (append_loop E port_status set_port_status)
      with (obs := fun k evs =>
              (observed evs = [] \/ observed evs = connects [k]) /\
              (sockets_ok E -> observed evs = connects [k]))
           (J := fun done evs =>
              exists ps, sublist ps done /\ (sockets_ok E -> ps = done) /\
                         observed evs = connects ps);
      try done.
    - by intros [].
    - rewrite Hr2. exact Hc3.
    - intros k s3. apply (check_port_spec E HC).
    - exists []. done.
    - intros done k evs1' evs2' (ps & Hsub & Hok & Hobs) [[Hk|Hk] Hk'].
      + exists ps. split; [|split].
        * rewrite <- (app_nil_r ps). by apply sublist_app, sublist_nil_l.
        * intros Hs. rewrite (Hk' Hs) in Hk. discriminate.
        * by rewrite observed_app, Hobs, Hk, app_nil_r.
      + exists (ps ++ [k]). split; [|split].
        * by apply sublist_app.
        * intros Hs. by rewrite (Hok Hs).
        * rewrite observed_app, Hobs, Hk. unfold connects.
          by rewrite map_app. }
  intros r3 s3 evs3 _ (-> & Hf3 & (ps & Hsub & Hok & Ho3) & m3 & Hr3 & Hg3).
  rewrite Hr2 in Hr3, Hg3. cbn in Hr3, Hg3.
  (* bandwidth *)
  apply wp_bind, wp_get_results. rewrite Hr3. cbn [timestamp set_port_status
    set_dns_times set_site_latencies set_timestamp].
  rewrite length_snoc.
  apply wp_bind.
  assert (Hspeed : wp E
    (if (Z.of_nat (S (length (timestamp (results s)))) mod 3 =? 0)%Z
     then measure_speed E else ret (None, None)) s3
    (probe_post s3 (fun v evs =>
       observed evs = speed_part (S (length (timestamp (results s)))) /\
       (fst v = None <-> snd v = None) /\
       (speed_part (S (length (timestamp (results s)))) = [] ->
        fst v = None /\ snd v = None)))).
  { unfold speed_part.
    destruct (Z.of_nat (S (length (timestamp (results s)))) mod 3 =? 0)%Z.
    - eapply wp_mono; [apply (measure_speed_spec E HC)|].
      intros r s' evs _ (? & ? & v & -> & ? & ?).
      repeat split; try done. exists v. done.
    - apply wp_ret. repeat split; try done. by exists (None, None). }
  eapply wp_mono; [exact Hspeed|].
  intros r4 s4 evs4 _ (Hr4 & Hf4 & [d u] & -> & Ho4 & Hdu & Hthr).
  cbn [fst snd] in *.
  apply wp_bind, wp_bind, wp_get_results, wp_set_results.
  apply wp_bind, wp_get_results, wp_set_results.
  cbn [results world]. rewrite Hr4, Hr3. intros [_ Hnow].
  split; cbn [results world files timestamp site_latencies dns_times
    port_status download_speed upload_speed set_port_status set_dns_times
    set_site_latencies set_timestamp set_download_speed set_upload_speed].
  - reflexivity.
  - congruence.
  - reflexivity.
  - exact Hg1.
  - exact Hg2.
  - exact Hg3.
  - exists d, u. done.
  - intros Hnn. cbn in Hnow. rewrite Hnow.
    match goal with |- context [elapsed E ?k ?evs] =>
      pose proof (elapsed_nonneg E k evs Hnn) end.
    lra.
  - exists ps. split; [done|]. split; [done|].
    rewrite !observed_app, Ho1, Ho2, Ho3, Ho4. cbn. by rewrite !app_nil_r.
Qed.

End Cycle.

(** ** The exporters *)

Lemma wp_pure {A} (E : Env) (m : M A) (a : A) s
  (Q : res A -> State -> list call -> Prop) :
  m s = (Returned a, s) -> Q (Returned a) s [] -> wp E m s Q.
Proof.
  intros Hm HQ. exists []. rewrite Hm. split; [apply runs_refl | exact HQ].
Qed.

Lemma bind_returned {A B} (m : M A) (k : A -> M B) s a s' :
  m s = (Returned a, s') -> bind m k s = k a s'.
Proof. intros Hm. unfold bind. by rewrite Hm. Qed.

Lemma getitem_returned `{Lookup K V D} (e : exn) (d : D) (k : K) (v : V) s :
  d !! k = Some v -> getitem e d k s = (Returned v, s).
Proof. intros Hk. unfold getitem. by rewrite Hk. Qed.

Lemma fold_each_pure {A B} (l : list A) (body : B -> A -> M B) (acc : B) s :
  (forall acc x, x ∈ l -> exists acc', body acc x s = (Returned acc', s)) ->
  exists acc', fold_each l acc body s = (Returned acc', s).
Proof.
  revert acc. induction l as [|x l IH]; intros acc Hbody; simpl.
  - by exists acc.
  - destruct (Hbody acc x) as [acc1 H1]; [by left|].
    unfold bind. rewrite H1. apply IH.
    intros acc' y Hy. apply Hbody. by right.
Qed.

Lemma read_cell_pure `{Countable K} {V B} (m : gmap K (list V)) (k : K)
  (i : nat) (col : list V) (v : V) (f : V -> B) s :
  m !! k = Some col -> col !! i = Some v ->
  (let* col := getitem KeyError m k in
   let* v := getitem IndexError col i in
   ret (f v)) s = (Returned (f v), s).
Proof.
  intros Hm Hc. unfold bind, getitem. rewrite Hm. cbn. by rewrite Hc.
Qed.

Section Exporters.

Context (E : Env) (cfg : Config).

(** Every column of [r] is [k] long: the series holds [k] complete
    samples. *)
Record aligned (k : nat) (r : Results) : Prop := {
  al_timestamp : length (timestamp r) = k;
  al_sites : forall site, site ∈ SITES cfg ->
    exists col, site_latencies r !! site = Some col /\ length col = k;
  al_dns : forall dns, dns ∈ DNS_SERVERS cfg ->
    exists col, dns_times r !! dns = Some col /\ length col = k;
  al_ports : forall port, port ∈ PORTS cfg ->
    exists col, port_status r !! port = Some col /\ length col = k;
  al_download : length (download_speed r) = k;
  al_upload : length (upload_speed r) = k
}.

Lemma aligned_has_columns k r : aligned k r -> has_columns cfg r.
Proof.
  intros [_ H1 H2 H3 _ _]. repeat split; intros x Hx.
  - destruct (H1 x Hx) as (col & -> & _). by eexists.
  - destruct (H2 x Hx) as (col & -> & _). by eexists.
  - destruct (H3 x Hx) as (col & -> & _). by eexists.
Qed.

Lemma csv_cells_pure `{Countable K} {V} (keys : list K)
  (m : gmap K (list V)) (i : nat) (f : V -> cell) (k : nat)
  (row : list cell) s :
  (forall key, key ∈ keys ->
     exists col, m !! key = Some col /\ length col = k) ->
  (i < k)%nat ->
  exists row',
    fold_each keys row (fun row key =>
      let* col := getitem KeyError m key in
      let* v := getitem IndexError col i in
      ret (row ++ [f v])) s = (Returned row', s).
Proof.
  intros Hcols Hi. apply fold_each_pure.
  intros acc key Hin. destruct (Hcols key Hin) as (col & Hcol & Hlen).
  destruct (lookup_lt_is_Some_2 col i) as [v Hv]; [lia|].
  eexists. apply (read_cell_pure _ _ _ _ _ (fun v => acc ++ [f v]) _ Hcol Hv).
Qed.

Lemma csv_row_pure k i s :
  aligned k (results s) -> (i < k)%nat ->
  exists row, csv_row cfg i s = (Returned row, s).
Proof.
  intros [Ht Hs Hd Hp Hdl Hul] Hi. unfold csv_row.
  rewrite (bind_returned get_results _ s (results s) s eq_refl).
  destruct (lookup_lt_is_Some_2 (timestamp (results s)) i) as [ts Hts]; [lia|].
  rewrite (bind_returned _ _ s ts s (getitem_returned _ _ _ _ _ Hts)).
  destruct (csv_cells_pure (SITES cfg) (site_latencies (results s)) i
              (fun v => py_or v "N/A") k [CStr ts] s Hs Hi) as [row1 H1].
  rewrite (bind_returned _ _ _ _ _ H1).
  destruct (csv_cells_pure (DNS_SERVERS cfg) (dns_times (results s)) i
              (fun v => py_or v "N/A") k row1 s Hd Hi) as [row2 H2].
  rewrite (bind_returned _ _ _ _ _ H2).
  destruct (csv_cells_pure (PORTS cfg) (port_status (results s)) i
              CBool k row2 s Hp Hi) as [row3 H3].
  rewrite (bind_returned _ _ _ _ _ H3).
  destruct (lookup_lt_is_Some_2 (download_speed (results s)) i) as [d Hdv]; [lia|].
  destruct (lookup_lt_is_Some_2 (upload_speed (results s)) i) as [u Huv]; [lia|].
  rewrite (bind_returned _ _ s d s (getitem_returned _ _ _ _ _ Hdv)).
  rewrite (bind_returned _ _ s u s (getitem_returned _ _ _ _ _ Huv)).
  by eexists.
Qed.

Lemma writerow_spec path row rows s
  (Q : res unit -> State -> list call -> Prop) :
  files (world s) !! path = Some (CsvFile rows) ->
  (forall s', results s' = results s ->
     files (world s') = <[path := CsvFile (rows ++ [row])]> (files (world s)) ->
     Q (Returned tt) s' [writer_writerow path row]) ->
  wp E (py_writerow E path row) s Q.
Proof.
  intros Hf HQ. unfold py_writerow.
  apply wp_bind, wp_perform; [reflexivity|]. cbn beta iota.
  apply wp_update_files. cbn. rewrite Hf. apply HQ; reflexivity.
Qed.

(** [save_to_csv] returns, leaves [results] alone, and replaces the
    report by the header row and one row per sample. *)
Lemma save_to_csv_spec k s :
  aligned k (results s) ->
  wp E (save_to_csv E cfg) s (fun r s' evs =>
    r = Returned tt /\ results s' = results s /\ observed evs = [] /\
    exists rows,
      length rows = k /\
      files (world s') =
        <[OUTPUT_CSV cfg := CsvFile (headers cfg :: rows)]> (files (world s))).
Proof.
  intros Hal. unfold save_to_csv, py_open_w.
  apply wp_bind, wp_bind, wp_perform; [reflexivity|]. cbn beta iota.
  apply wp_update_files. apply wp_bind.
  apply (writerow_spec _ _ []); [cbn; apply lookup_insert_eq|].
  intros s1 Hr1 Hf1. cbn in Hr1, Hf1. rewrite insert_insert_eq in Hf1.
  apply wp_bind, wp_get_results. rewrite Hr1, (al_timestamp _ _ Hal).
  eapply wp_mono.
  - apply (wp_for_each E (fun done s2 evs =>
      results s2 = results s /\ observed evs = [] /\
      exists rows, length rows = length done /\
        files (world s2) =
          <[OUTPUT_CSV cfg := CsvFile (headers cfg :: rows)]> (files (world s)))).
    + split; [done|]. split; [done|]. exists []. done.
    + intros done i rest s2 evs2 Hl (Hr2 & Ho2 & rows & Hlen & Hf2).
      assert (Hi : (i < k)%nat).
      { assert (Hin : i ∈ seq 0 k) by (rewrite Hl; apply elem_of_app; right; by left).
        apply elem_of_seq in Hin. lia. }
      destruct (csv_row_pure k i s2) as [row Hrow]; [by rewrite Hr2 | done |].
      apply wp_bind. eapply wp_pure; [exact Hrow|].
      apply (writerow_spec _ _ (headers cfg :: rows)).
      { rewrite Hf2. apply lookup_insert_eq. }
      intros s3 Hr3 Hf3. split; [done|]. split; [congruence|]. split.
      * by rewrite app_nil_l, observed_app, Ho2.
      * exists (rows ++ [row]). split.
        -- rewrite !length_app. simpl. lia.
        -- by rewrite Hf3, Hf2, insert_insert_eq.
  - intros r s' evs _ (-> & Hr & Ho & rows & Hlen & Hf).
    split; [done|]. split; [done|]. split.
    + rewrite !observed_app, Ho. reflexivity.
    + exists rows. split; [by rewrite Hlen, length_seq | done].
Qed.

Lemma plot_lines_pure `{Countable K} {V} (keys : list K)
  (m : gmap K (list V)) (x : list string) (y : list V -> list plotval)
  (label : K -> string) (k : nat) s :
  length x = k ->
  (forall key, key ∈ keys ->
     exists col, m !! key = Some col /\ length (y col) = k) ->
  exists lines,
    fold_each keys [] (fun lines key =>
      let* col := getitem KeyError m key in
      let* l := plt_plot x (y col) (label key) in
      ret (lines ++ [l])) s = (Returned lines, s).
Proof.
  intros Hx Hcols. apply fold_each_pure.
  intros acc key Hin. destruct (Hcols key Hin) as (col & Hcol & Hlen).
  unfold bind, getitem, plt_plot. rewrite Hcol. cbn.
  rewrite bool_decide_eq_true_2 by congruence. cbn. by eexists.
Qed.

(** [plot_results] returns and leaves [results] alone. *)
Lemma plot_results_spec k s :
  aligned k (results s) ->
  wp E (plot_results E cfg) s (fun r s' evs =>
    r = Returned tt /\ results s' = results s /\ observed evs = [] /\
    forall path, path <> "network_monitoring_plot.png" ->
      files (world s') !! path = files (world s) !! path).
Proof.
  intros [Ht Hs Hd Hp Hdl Hul]. unfold plot_results.
  apply wp_bind, wp_get_results.
  destruct (plot_lines_pure (SITES cfg) (site_latencies (results s))
              (timestamp (results s)) (map nan_of) (fun site => site) k s)
    as [lines1 H1]; [done| |].
  { intros key Hin. destruct (Hs key Hin) as (col & ? & ?).
    exists col. by rewrite length_map. }
  apply wp_bind. eapply wp_pure; [exact H1|].
  destruct (plot_lines_pure (DNS_SERVERS cfg) (dns_times (results s))
              (timestamp (results s)) (map nan_of) (fun dns => "DNS " +:+ dns) k s)
    as [lines2 H2]; [done| |].
  { intros key Hin. destruct (Hd key Hin) as (col & ? & ?).
    exists col. by rewrite length_map. }
  apply wp_bind. eapply wp_pure; [exact H2|].
  unfold plt_plot. rewrite !length_map.
  rewrite !bool_decide_eq_true_2 by congruence.
  apply wp_bind, wp_ret, wp_bind, wp_ret.
  unfold plt_savefig_. apply wp_bind, wp_perform; [reflexivity|]. cbn beta iota.
  apply wp_update_files. split; [done|]. split; [done|]. split; [done|].
  intros path Hne. cbn. by rewrite lookup_insert_ne.
Qed.

End Exporters.

(** ** One iteration of the loop *)

Lemma naps_connects ps : (naps (connects ps) == 0)%Q.
Proof. induction ps as [|p ps IH]; simpl; [lra | rewrite IH; lra]. Qed.

Lemma naps_speed_part n : (naps (speed_part n) == 0)%Q.
Proof. unfold speed_part. destruct (_ =? _)%Z; simpl; lra. Qed.

Section Iteration.

Context (E : Env) (cfg : Config) (HC : LibraryContract E).
Context (Hsites : NoDup (SITES cfg)).
Context (Hdns : NoDup (DNS_SERVERS cfg)).
Context (Hports : NoDup (PORTS cfg)).

Lemma cycle_post_aligned k s r s1 evs1 :
  aligned cfg k (results s) -> cycle_post E cfg s r s1 evs1 ->
  aligned cfg (S k) (results s1).
Proof.
  intros [Ht Hs Hd Hp Hdl Hul] [_ _ Hts [Hg1 _] [Hg2 _] [Hg3 _] Hsp _ _].
  destruct Hsp as (d & u & Hd' & Hu' & _). split.
  - rewrite Hts, length_snoc. congruence.
  - intros site Hin. destruct (Hs site Hin) as (col & Hcol & Hlen).
    destruct (Hg1 site col Hin Hcol) as [v Hv].
    exists (col ++ [v]). split; [done|]. rewrite length_snoc. congruence.
  - intros dns Hin. destruct (Hd dns Hin) as (col & Hcol & Hlen).
    destruct (Hg2 dns col Hin Hcol) as [v Hv].
    exists (col ++ [v]). split; [done|]. rewrite length_snoc. congruence.
  - intros port Hin. destruct (Hp port Hin) as (col & Hcol & Hlen).
    destruct (Hg3 port col Hin Hcol) as [v Hv].
    exists (col ++ [v]). split; [done|]. rewrite length_snoc. congruence.
  - rewrite Hd', length_snoc. congruence.
  - rewrite Hu', length_snoc. congruence.
Qed.

(** What one pass through the loop body does: a cycle, then the report
    is rewritten with one row per sample, then the wait. *)
Record iteration_post (k : nat) (s : State) (r : res unit) (s' : State)
  (evs : list call) : Prop := {
  ip_ret : r = Returned tt;
  ip_cycle : exists s1 evs1,
    cycle_post E cfg s (Returned tt) s1 evs1 /\
    results s' = results s1 /\
    observed evs = observed evs1 ++ [asyncio_sleep (INTERVAL cfg)];
  ip_aligned : aligned cfg (S k) (results s');
  ip_clock :
    (forall n, 0 <= delay E n)%Q ->
    (now (world s) + delay E (length (log (world s))) <= now (world s'))%Q;
  ip_report :
    OUTPUT_CSV cfg <> "network_monitoring_plot.png" ->
    exists rows,
      length rows = S k /\
      files (world s') !! OUTPUT_CSV cfg =
        Some (CsvFile (headers cfg :: rows))
}.

Lemma iteration_spec k s :
  aligned cfg k (results s) ->
  wp E (iteration E cfg) s (iteration_post k s).
Proof.
  intros Hal. unfold iteration.
  apply wp_bind. eapply wp_mono.
  { apply (cycle_spec E cfg HC Hsites Hdns Hports).
    by eapply aligned_has_columns. }
  intros r1 s1 evs1 _ Hcp. pose proof (cp_ret _ _ _ _ _ _ Hcp) as ->.
  pose proof (cycle_post_aligned k s _ s1 evs1 Hal Hcp) as Hal1.
  apply wp_with_runs.
  apply wp_bind. eapply wp_mono; [apply (save_to_csv_spec E cfg (S k) s1 Hal1)|].
  intros r2 s2 evs2 _ (-> & Hr2 & Ho2 & rows & Hlen & Hf2).
  apply wp_bind. eapply wp_mono.
  { apply (plot_results_spec E cfg (S k) s2). by rewrite Hr2. }
  intros r3 s3 evs3 _ (-> & Hr3 & Ho3 & Hf3).
  apply wp_sleep. intros s4 Hr4 Hf4 [_ Hnow]. split.
  - reflexivity.
  - exists s1, evs1. split; [done|]. split; [congruence|].
    by rewrite !observed_app, Ho2, Ho3.
  - rewrite Hr4, Hr3, Hr2. exact Hal1.
  - intros Hnn. pose proof (cp_clock _ _ _ _ _ _ Hcp Hnn) as Hc.
    match type of Hnow with context [elapsed E ?n ?evs] =>
      pose proof (elapsed_nonneg E n evs Hnn) end.
    lra.
  - intros Hne. exists rows. split; [done|].
    rewrite Hf4, (Hf3 _ Hne), Hf2. apply lookup_insert_eq.
Qed.

End Iteration.

(** ** The loop *)

Definition nonneg_delays (E : Env) : Prop := forall n, (0 <= delay E n)%Q.

Definition zero_delays (E : Env) : Prop := forall n, (delay E n == 0)%Q.

(** The wait that [asyncio.sleep(INTERVAL)] asks for. *)
Definition wait (cfg : Config) : Q := inject_Z (Z.max (INTERVAL cfg) 0).

Section Run.

Context (E : Env) (cfg : Config) (HC : LibraryContract E).
Context (Hsites : NoDup (SITES cfg)).
Context (Hdns : NoDup (DNS_SERVERS cfg)).
Context (Hports : NoDup (PORTS cfg)).

(** The observed calls of [j] complete iterations: in each, connection
    attempts to ["example.com"] on (a sublist of) the configured ports in
    order, then the start of a speed test if the iteration number is a
    multiple of three, then one wait of [INTERVAL] seconds. *)
Inductive trace_ok : nat -> list call -> Prop :=
  | trace_ok_O : trace_ok O []
  | trace_ok_S j obs ps :
      trace_ok j obs ->
      sublist ps (PORTS cfg) ->
      (sockets_ok E -> ps = PORTS cfg) ->
      trace_ok (S j)
        (obs ++ connects ps ++ speed_part (S j) ++
         [asyncio_sleep (INTERVAL cfg)]).

(** Every timestamp is the rendering of a clock reading; the readings
    were taken in order and none lies in the future. *)
Definition stamped (s : State) : Prop :=
  exists times : list Q,
    timestamp (results s) = map (fun t => strftime (localtime E t)) times /\
    Forall (fun t => (t <= now (world s))%Q) times /\
    (forall i j a b, (i <= j)%nat ->
       times !! i = Some a -> times !! j = Some b -> (a <= b)%Q).

(** The state at the loop test after [j] iterations of a run whose
    [start_time] is [start]. *)
Record Inv (start : Q) (j : nat) (s : State) : Prop := {
  inv_aligned : aligned cfg j (results s);
  inv_trace : trace_ok j (observed (log (world s)));
  inv_speed : forall i, (i < j)%nat -> speed_part (S i) = [] ->
    download_speed (results s) !! i = Some None /\
    upload_speed (results s) !! i = Some None;
  inv_pair : forall i d u,
    download_speed (results s) !! i = Some d ->
    upload_speed (results s) !! i = Some u ->
    (d = None <-> u = None);
  inv_clock_lb : nonneg_delays E ->
    (start + inject_Z (Z.of_nat j) * wait cfg <= now (world s))%Q;
  inv_clock_eq : zero_delays E ->
    (now (world s) == start + inject_Z (Z.of_nat j) * wait cfg)%Q;
  inv_stamped : nonneg_delays E -> stamped s;
  inv_report :
    (0 < j)%nat -> OUTPUT_CSV cfg <> "network_monitoring_plot.png" ->
    exists rows,
      length rows = j /\
      files (world s) !! OUTPUT_CSV cfg =
        Some (CsvFile (headers cfg :: rows))
}.

Lemma inject_Z_succ j :
  (inject_Z (Z.of_nat (S j)) == inject_Z (Z.of_nat j) + 1)%Q.
Proof. rewrite Nat2Z.inj_succ, <- Z.add_1_r, inject_Z_plus. reflexivity. Qed.

Lemma stamped_step s s' t :
  stamped s ->
  timestamp (results s') =
    timestamp (results s) ++ [strftime (localtime E t)] ->
  (now (world s) <= t)%Q -> (t <= now (world s'))%Q ->
  stamped s'.
Proof.
  intros (times & Hts & Hle & Hmono) Hts' H1 H2.
  exists (times ++ [t]). split; [|split].
  - by rewrite Hts', Hts, map_app.
  - apply Forall_app. split.
    + eapply Forall_impl; [exact Hle|]. cbn. intros x Hx. lra.
    + by apply Forall_singleton.
  - intros i j a b Hij Ha Hb.
    apply lookup_snoc_Some in Ha as [[Hi Ha]|[Hi <-]];
    apply lookup_snoc_Some in Hb as [[Hj Hb]|[Hj <-]].
    + eauto.
    + rewrite Forall_forall in Hle.
      assert (a <= now (world s))%Q; [|lra].
      apply Hle. eapply list_elem_of_lookup_2. eauto.
    + lia.
    + lra.
Qed.

(** The loop body preserves the invariant. *)
Lemma Inv_step start j s :
  Inv start j s ->
  exists s', iteration E cfg (after E time_time s) = (Returned tt, s') /\
             Inv start (S j) s'.
Proof.
  intros [Hal Htr Hsp Hpair Hlb Heq Hst Hrep].
  set (s1 := after E time_time s).
  assert (Hal1 : aligned cfg j (results s1)) by exact Hal.
  destruct (iteration_spec E cfg HC Hsites Hdns Hports j s1 Hal1)
    as (evs & [Hlog Hnow] & [Hret (s2 & evs2 & Hcp & Hr & Hobs) Hal' Hclk Hrep']).
  destruct (iteration E cfg s1) as [r s'] eqn:Hit. cbn [fst snd] in *.
  subst r. exists s'. split; [reflexivity|].
  destruct Hcp as [_ _ Hts _ _ _ (d & u & Hd & Hu & Hdu & Hthr) _ (ps & Hsub & Hok & Hobs2)].
  change (results s1) with (results s) in *.
  rewrite (al_timestamp _ _ _ Hal) in Hthr, Hobs2.
  assert (Hnaps : (naps evs == wait cfg)%Q).
  { rewrite <- naps_observed, Hobs, Hobs2, !naps_app, naps_connects,
      naps_speed_part. cbn. unfold wait. lra. }
  split.
  - exact Hal'.
  - rewrite Hlog. cbn [s1 after world log]. rewrite !observed_app, Hobs, Hobs2.
    cbn [observed List.filter notable]. rewrite app_nil_r, <- !app_assoc.
    by constructor.
  - intros i Hi Hnone. rewrite Hr, Hd, Hu.
    destruct (decide (i = j)) as [->|Hne].
    + destruct (Hthr Hnone) as [-> ->].
      split; apply lookup_snoc_Some; right; (split; [|done]).
      * by rewrite (al_download _ _ _ Hal).
      * by rewrite (al_upload _ _ _ Hal).
    + rewrite !lookup_app_l
        by (rewrite ?(al_download _ _ _ Hal), ?(al_upload _ _ _ Hal); lia).
      apply Hsp; [lia | done].
  - intros i d' u'. rewrite Hr, Hd, Hu. intros H1 H2.
    apply lookup_snoc_Some in H1 as [[Hi H1]|[Hi <-]];
    apply lookup_snoc_Some in H2 as [[Hi' H2]|[Hi' <-]].
    + eauto.
    + rewrite (al_download _ _ _ Hal) in Hi.
      rewrite (al_upload _ _ _ Hal) in Hi'. lia.
    + rewrite (al_download _ _ _ Hal) in Hi.
      rewrite (al_upload _ _ _ Hal) in Hi'. lia.
    + exact Hdu.
  - intros Hnn. specialize (Hlb Hnn).
    pose proof (elapsed_ge_naps E (length (log (world s1))) evs Hnn) as Hge.
    pose proof (Hnn (length (log (world s)))) as Hd0.
    rewrite Hnow, inject_Z_succ. cbn [s1 after world now] in *. lra.
  - intros Hz. specialize (Heq Hz).
    pose proof (elapsed_eq_naps E (length (log (world s1))) evs Hz) as Hge.
    pose proof (Hz (length (log (world s)))) as Hd0.
    rewrite Hnow, inject_Z_succ. cbn [s1 after world now] in *. lra.
  - intros Hnn. eapply (stamped_step s); [by apply Hst | | | by apply Hclk].
    + rewrite Hr. exact Hts.
    + pose proof (Hnn (length (log (world s)))) as Hd0.
      pose proof (Hnn (length (log (world s1)))) as Hd1.
      cbn [s1 after world now] in *. lra.
  - intros _ Hne. by apply Hrep'.
Qed.

End Run.

Section MainLoop.

Context (E : Env) (cfg : Config) (HC : LibraryContract E).
Context (Hsites : NoDup (SITES cfg)).
Context (Hdns : NoDup (DNS_SERVERS cfg)).
Context (Hports : NoDup (PORTS cfg)).

(** The outcome of a finished loop: it returned, after some number [N]
    of iterations, right after a clock reading that showed the budget
    used up. *)
Definition finished (start : Q) (N : nat) (out : res unit) (s' : State) : Prop :=
  out = Returned tt /\
  exists sN, Inv E cfg start N sN /\ s' = after E time_time sN /\
             (inject_Z (DURATION cfg) <= now (world s') - start)%Q.

Lemma Qltb_true x y : Qltb x y = true <-> (x < y)%Q.
Proof.
  unfold Qltb. rewrite negb_true_iff. split.
  - intros H. apply Qnot_le_lt. intros Hle.
    apply Qle_bool_iff in Hle. congruence.
  - intros H. destruct (Qle_bool y x) eqn:Hb; [|done].
    apply Qle_bool_iff in Hb. lra.
Qed.

Lemma Qltb_false x y : Qltb x y = false <-> (y <= x)%Q.
Proof.
  unfold Qltb. rewrite negb_false_iff. apply Qle_bool_iff.
Qed.

(** Whatever the fuel, a loop that ends has run whole iterations only,
    and started the last of them before the budget was used up. *)
Lemma main_loop_finished fuel start j s out s' :
  Inv E cfg start j s ->
  main_loop E cfg fuel start s = Some (out, s') ->
  exists N, (j <= N)%nat /\ finished start N out s' /\
    (nonneg_delays E ->
     N = j \/
     ((inject_Z (Z.of_nat N) - 1) * wait cfg < inject_Z (DURATION cfg))%Q).
Proof.
  revert j s. induction fuel as [|fuel IH]; intros j s HI Hrun; [discriminate|].
  cbn [main_loop] in Hrun.
  change (py_time_time E s) with
    (Returned (now (world (after E time_time s))), after E time_time s) in Hrun.
  cbn beta iota in Hrun.
  destruct (Qltb _ _) eqn:Hlt.
  - destruct (Inv_step E cfg HC Hsites Hdns Hports start j s HI) as (s2 & Hit & HI2).
    rewrite Hit in Hrun. destruct (IH _ _ HI2 Hrun) as (N & HN & Hfin & Hb).
    exists N. split; [lia|]. split; [done|]. intros Hnn. right.
    destruct (Hb Hnn) as [->|Hb']; [|exact Hb'].
    apply Qltb_true in Hlt. cbn [after world now] in Hlt.
    pose proof (inv_clock_lb _ _ _ _ _ HI Hnn) as Hlb.
    pose proof (Hnn (length (log (world s)))) as Hd0.
    rewrite inject_Z_succ. lra.
  - injection Hrun as <- <-. exists j. split; [lia|]. split.
    + split; [done|]. exists s. split; [done|]. split; [done|].
      by apply Qltb_false.
    + intros _. by left.
Qed.

(** With a positive interval and a clock that does not run backwards,
    the loop ends within [fuel] tests as soon as [fuel] intervals cover
    what is left of the budget. *)
Lemma main_loop_terminates fuel start j s :
  nonneg_delays E -> (0 < INTERVAL cfg)%Z ->
  Inv E cfg start j s ->
  (1 <= fuel)%nat ->
  (DURATION cfg <= (Z.of_nat fuel + Z.of_nat j - 1) * INTERVAL cfg)%Z ->
  exists out s', main_loop E cfg fuel start s = Some (out, s').
Proof.
  intros Hnn HI0. revert j s.
  induction fuel as [|fuel IH]; intros j s HI Hf Hbudget; [lia|].
  cbn [main_loop].
  change (py_time_time E s) with
    (Returned (now (world (after E time_time s))), after E time_time s).
  cbn beta iota.
  destruct (Qltb _ _) eqn:Hlt; [|by eauto].
  destruct (Inv_step E cfg HC Hsites Hdns Hports start j s HI) as (s2 & Hit & HI2).
  rewrite Hit. apply Qltb_true in Hlt.
  pose proof (inv_clock_lb _ _ _ _ _ HI Hnn) as Hlb.
  pose proof (Hnn (length (log (world s)))) as Hd0.
  cbn [after world now] in Hlt.
  assert (Hj : (Z.of_nat j * INTERVAL cfg < DURATION cfg)%Z).
  { rewrite Zlt_Qlt, inject_Z_mult.
    unfold wait in Hlb. rewrite Z.max_l in Hlb by lia. lra. }
  apply (IH (S j) s2 HI2); nia.
Qed.

End MainLoop.

(** ** Timestamps and their order *)









Lemma pad2_length n : String.length (pad2 n) = 2%nat.
Proof. reflexivity. Qed.

Lemma pad4_length n : String.length (pad4 n) = 4%nat.
Proof. reflexivity. Qed.






(** ** Reading a log *)

(** The number of speed tests started in each completed iteration: an
    iteration is complete at its [asyncio.sleep]. *)
Fixpoint per_cycle (cur : nat) (l : list call) : list nat :=
  match l with
  | [] => []
  | asyncio_sleep _ :: l' => cur :: per_cycle O l'
  | speedtest_Speedtest :: l' => per_cycle (S cur) l'
  | _ :: l' => per_cycle cur l'
  end.

(** The speed tests started since the last completed iteration. *)
Fixpoint pending (cur : nat) (l : list call) : nat :=
  match l with
  | [] => cur
  | asyncio_sleep _ :: l' => pending O l'
  | speedtest_Speedtest :: l' => pending (S cur) l'
  | _ :: l' => pending cur l'
  end.

Definition speed_tests_by_cycle (l : list call) : list nat := per_cycle O l.

Definition is_sleep (c : call) : bool :=
  match c with asyncio_sleep _ => true | _ => false end.

Definition is_connect (c : call) : bool :=
  match c with sock_connect_ex _ _ => true | _ => false end.

(** The waits and the connection attempts of a log, in order. *)
Definition waits (l : list call) : list call := List.filter is_sleep l.

Definition connections (l : list call) : list call := List.filter is_connect l.

Lemma per_cycle_app c l1 l2 :
  per_cycle c (l1 ++ l2) = per_cycle c l1 ++ per_cycle (pending c l1) l2.
Proof.
  revert c. induction l1 as [|x l1 IH]; intros c; [reflexivity|].
  destruct x; simpl; rewrite ?IH; reflexivity.
Qed.

Lemma pending_app c l1 l2 : pending c (l1 ++ l2) = pending (pending c l1) l2.
Proof.
  revert c. induction l1 as [|x l1 IH]; intros c; [reflexivity|].
  destruct x; simpl; rewrite ?IH; reflexivity.
Qed.

Lemma per_cycle_observed c l : per_cycle c (observed l) = per_cycle c l.
Proof.
  revert c. induction l as [|x l IH]; intros c; [reflexivity|].
  destruct x; simpl; rewrite ?IH; reflexivity.
Qed.

Lemma waits_observed l : waits (observed l) = waits l.
Proof.
  induction l as [|x l IH]; [reflexivity|].
  destruct x; simpl; rewrite ?IH; reflexivity.
Qed.

Lemma connections_observed l : connections (observed l) = connections l.
Proof.
  induction l as [|x l IH]; [reflexivity|].
  destruct x; simpl; rewrite ?IH; reflexivity.
Qed.

Lemma per_cycle_connects c ps l : per_cycle c (connects ps ++ l) = per_cycle c l.
Proof. induction ps as [|p ps IH]; [reflexivity | exact IH]. Qed.

Lemma pending_connects c ps l : pending c (connects ps ++ l) = pending c l.
Proof. induction ps as [|p ps IH]; [reflexivity | exact IH]. Qed.

Lemma waits_connects ps : waits (connects ps) = [].
Proof. induction ps as [|p ps IH]; [reflexivity | exact IH]. Qed.

Lemma connections_connects ps : connections (connects ps) = connects ps.
Proof. induction ps as [|p ps IH]; [reflexivity | simpl; by rewrite IH]. Qed.

Section Traces.

Context (E : Env) (cfg : Config).

Lemma trace_pending j obs : trace_ok E cfg j obs -> pending O obs = O.
Proof.
  induction 1 as [|j obs ps _ IH _ _]; [reflexivity|].
  rewrite pending_app, IH, pending_connects. unfold speed_part.
  by destruct (_ =? _)%Z.
Qed.

(** Iteration [i] (counted from one) starts a speed test exactly when
    [i] is a multiple of three, and then exactly one. *)
Lemma trace_speed_tests j obs :
  trace_ok E cfg j obs ->
  per_cycle O obs = map (fun i => length (speed_part i)) (seq 1 j).
Proof.
  induction 1 as [|j obs ps Htr IH _ _]; [reflexivity|].
  rewrite per_cycle_app, IH, (trace_pending _ _ Htr), per_cycle_connects.
  rewrite seq_S, map_app. f_equal. change (1 + j)%nat with (S j).
  unfold speed_part. cbn [map]. by destruct (_ =? _)%Z.
Qed.

(** Every iteration ends with one wait of [INTERVAL] seconds, and
    nothing else waits. *)
Lemma trace_waits j obs :
  trace_ok E cfg j obs ->
  waits obs = replicate j (asyncio_sleep (INTERVAL cfg)).
Proof.
  induction 1 as [|j obs ps _ IH _ _]; [reflexivity|].
  unfold waits in *. rewrite !List.filter_app, IH, replicate_S_end.
  fold (waits (connects ps)). rewrite waits_connects. unfold speed_part.
  by destruct (_ =? _)%Z.
Qed.

(** Every connection attempt goes to ["example.com"], on a configured
    port; when sockets can be created, each iteration tries every
    configured port once, in order. *)
Lemma trace_connections j obs :
  trace_ok E cfg j obs ->
  Forall (fun c => exists p, p ∈ PORTS cfg /\ c = sock_connect_ex "example.com" p)
         (connections obs) /\
  (sockets_ok E ->
   connections obs = concat (replicate j (connects (PORTS cfg)))).
Proof.
  induction 1 as [|j obs ps _ [IH1 IH2] Hsub Hok]; [by split|].
  assert (Hseg : connections (obs ++ connects ps ++ speed_part (S j) ++
                   [asyncio_sleep (INTERVAL cfg)]) =
                 connections obs ++ connects ps).
  { unfold connections. rewrite !List.filter_app.
    fold (connections (connects ps)). rewrite connections_connects.
    unfold speed_part. destruct (_ =? _)%Z; cbn; by rewrite app_nil_r. }
  rewrite Hseg. split.
  - apply Forall_app. split; [exact IH1|].
    unfold connects. apply Forall_map, Forall_forall. intros p Hp.
    exists p. split; [|done]. eapply elem_of_sublist; eauto.
  - intros Hs. rewrite (IH2 Hs), (Hok Hs), replicate_S_end, concat_app.
    cbn. by rewrite app_nil_r.
Qed.

End Traces.

(** ** The whole run *)

Lemma empty_columns_lookup `{Countable K} {V} (keys : list K) (k : K) :
  k ∈ keys -> (empty_columns keys : gmap K (list V)) !! k = Some [].
Proof.
  unfold empty_columns. induction keys as [|x keys IH]; intros Hk.
  - by apply elem_of_nil in Hk.
  - cbn [map]. rewrite list_to_map_cons.
    destruct (decide (x = k)) as [->|Hne].
    + apply lookup_insert_eq.
    + rewrite lookup_insert_ne by done. apply IH.
      apply elem_of_cons in Hk as [->|Hk]; [done | exact Hk].
Qed.

Lemma initial_aligned cfg : aligned cfg O (initial_results cfg).
Proof.
  split; cbn; try reflexivity; intros x Hx; exists [];
    (split; [by apply empty_columns_lookup | reflexivity]).
Qed.

Section Main.

Context (E : Env) (cfg : Config) (HC : LibraryContract E).
Context (Hsites : NoDup (SITES cfg)).
Context (Hdns : NoDup (DNS_SERVERS cfg)).
Context (Hports : NoDup (PORTS cfg)).

(** [start_time], as [main] reads it when the clock shows [t0]. *)
Definition start_of (t0 : Q) : Q := (t0 + delay E O)%Q.

Lemma initial_Inv t0 :
  Inv E cfg (start_of t0) O (after E time_time (initial_state cfg t0)).
Proof.
  split.
  - apply initial_aligned.
  - constructor.
  - intros i Hi. lia.
  - intros i d u Hd. discriminate.
  - intros _. unfold start_of. cbn [after initial_state initial_world world now log length].
    change (inject_Z (Z.of_nat 0)) with 0%Q. lra.
  - intros _. unfold start_of. cbn [after initial_state initial_world world now log length].
    change (inject_Z (Z.of_nat 0)) with 0%Q. lra.
  - intros _. exists []. split; [reflexivity|]. split; [constructor|].
    intros i j a b _ Ha. discriminate.
  - intros Hj. lia.
Qed.

Lemma main_finished t0 fuel out s' :
  main E cfg fuel (initial_state cfg t0) = Some (out, s') ->
  exists N, finished E cfg (start_of t0) N out s' /\
    (nonneg_delays E ->
     N = O \/
     ((inject_Z (Z.of_nat N) - 1) * wait cfg < inject_Z (DURATION cfg))%Q).
Proof.
  intros Hrun.
  destruct (main_loop_finished E cfg HC Hsites Hdns Hports fuel (start_of t0)
              O _ out s' (initial_Inv t0) Hrun) as (N & _ & Hfin & Hb).
  exists N. split; [exact Hfin | exact Hb].
Qed.

Lemma main_terminates t0 fuel :
  nonneg_delays E -> (0 < INTERVAL cfg)%Z -> (1 <= fuel)%nat ->
  (DURATION cfg <= (Z.of_nat fuel - 1) * INTERVAL cfg)%Z ->
  exists out s', main E cfg fuel (initial_state cfg t0) = Some (out, s').
Proof.
  intros Hnn HI Hf Hb.
  apply (main_loop_terminates E cfg HC Hsites Hdns Hports fuel (start_of t0)
           O _ Hnn HI (initial_Inv t0) Hf).
  lia.
Qed.

End Main.

Section Outcome.

Context (E : Env) (cfg : Config) (HC : LibraryContract E).
Context (Hsites : NoDup (SITES cfg)).
Context (Hdns : NoDup (DNS_SERVERS cfg)).
Context (Hports : NoDup (PORTS cfg)).

(** Reading the clock does not disturb the invariant. *)
Lemma Inv_tick start j s :
  Inv E cfg start j s -> Inv E cfg start j (after E time_time s).
Proof.
  intros [Hal Htr Hsp Hpair Hlb Heq Hst Hrep]. split; try done.
  - cbn [after world log]. rewrite observed_app. cbn. by rewrite app_nil_r.
  - intros Hnn. specialize (Hlb Hnn).
    pose proof (Hnn (length (log (world s)))). cbn [after world now]. lra.
  - intros Hz. specialize (Heq Hz).
    pose proof (Hz (length (log (world s)))). cbn [after world now]. lra.
  - intros Hnn. destruct (Hst Hnn) as (times & Hts & Hle & Hmono).
    exists times. split; [done|]. split; [|done].
    eapply Forall_impl; [exact Hle|]. cbn. intros t Ht.
    pose proof (Hnn (length (log (world s)))). lra.
Qed.

(** A run of [main] that ends has returned, leaving a state that
    satisfies the invariant for the number of samples it holds. *)
Lemma main_outcome t0 fuel out s' :
  main E cfg fuel (initial_state cfg t0) = Some (out, s') ->
  out = Returned tt /\
  Inv E cfg (start_of E t0) (length (timestamp (results s'))) s' /\
  (inject_Z (DURATION cfg) <= now (world s') - start_of E t0)%Q /\
  (nonneg_delays E ->
   length (timestamp (results s')) = O \/
   ((inject_Z (Z.of_nat (length (timestamp (results s')))) - 1) * wait cfg <
    inject_Z (DURATION cfg))%Q).
Proof.
  intros Hrun.
  destruct (main_finished E cfg HC Hsites Hdns Hports t0 fuel out s' Hrun)
    as (N & (-> & sN & HI & -> & Hexit) & Hb).
  pose proof (Inv_tick _ _ _ HI) as HI'.
  pose proof (al_timestamp _ _ _ (inv_aligned _ _ _ _ _ HI')) as HN.
  rewrite HN. done.
Qed.

End Outcome.

(** ** The properties of the specification *)


Lemma source_config_sites_nodup : NoDup (SITES source_config).
Proof. apply (bool_decide_unpack _). vm_compute. exact I. Qed.

Lemma source_config_dns_nodup : NoDup (DNS_SERVERS source_config).
Proof. apply (bool_decide_unpack _). vm_compute. exact I. Qed.

Lemma source_config_ports_nodup : NoDup (PORTS source_config).
Proof. apply (bool_decide_unpack _). vm_compute. exact I. Qed.


(** Every site answers with the HTTP status [code]. *)
Definition status_env (code : Z) : Env := {|
  delay := fun _ => (1 # 10)%Q;
  localtime := clock_face;
  get_answer := fun _ _ => Returned (mk_response code);
  socket_answer := fun _ => Returned tt;
  gethostbyaddr_answer := fun _ _ => Returned tt;
  connect_ex_answer := fun _ _ _ => Returned 111;
  Speedtest_answer := fun _ => Returned tt;
  get_best_server_answer := fun _ => Returned tt;
  download_answer := fun _ => Returned (50000000 # 1)%Q;
  upload_answer := fun _ => Returned (10000000 # 1)%Q
|}.



Lemma measure_speed_both_or_neither_witness :
  LibraryContract calm_env /\
  fst (measure_speed calm_env (initial_state source_config 0)) =
    Returned (Some ((50000000 # 1) / 1000000)%Q, Some ((10000000 # 1) / 1000000)%Q).
Proof.
  assert (HC : LibraryContract calm_env)
    by (split; simpl; intros; discriminate).
  split; [exact HC|].
  destruct (measure_speed_both_or_neither calm_env
              (initial_state source_config 0) HC) as [[Hok|Hnone] _].
  - destruct Hok as (d & u & _ & _ & Hd & Hu & Hret).
    simpl in Hd, Hu. injection Hd as <-. injection Hu as <-. exact Hret.
  - discriminate.
Defined.

Lemma speed_part_length i :
  length (speed_part i) = if (Z.of_nat i mod 3 =? 0)%Z then 1%nat else 0%nat.
Proof. unfold speed_part. by destruct (_ =? _)%Z. Qed.

Lemma speed_part_nil i : (Z.of_nat i mod 3)%Z <> 0%Z -> speed_part i = [].
Proof.
  intros Hne. unfold speed_part.
  by destruct (Z.eqb_spec (Z.of_nat i mod 3) 0).
Qed.

(** C2.  Count the cycles of a run from one, which is what
    [len(results["timestamp"])] reads after the timestamp of the cycle
    has been appended.  In a run of [main] that ends with [N] samples,
    cycle [i] starts the speed test exactly when [i mod 3 = 0] (and then
    once), and every other cycle records [None] for both bandwidth
    values.  In particular, in a run that produces exactly three samples
    only the third cycle runs the speed test, and the first two samples
    hold [None] for download and upload. *)
Theorem speed_test_every_third_cycle
  (E : Env) (cfg : Config) (t0 : Q) (fuel : nat) (out : res unit) (s' : State)
  (HC : LibraryContract E)
  (Hsites : NoDup (SITES cfg)) (Hdns : NoDup (DNS_SERVERS cfg))
  (Hports : NoDup (PORTS cfg))
  (Hrun : main E cfg fuel (initial_state cfg t0) = Some (out, s')) :
  let N := length (timestamp (results s')) in
  out = Returned tt /\
  speed_tests_by_cycle (log (world s')) =
    map (fun i => if (Z.of_nat i mod 3 =? 0)%Z then 1%nat else 0%nat) (seq 1 N) /\
  (forall i, (i < N)%nat -> (Z.of_nat (S i) mod 3)%Z <> 0%Z ->
     download_speed (results s') !! i = Some None /\
     upload_speed (results s') !! i = Some None) /\
  (N = 3%nat ->
     speed_tests_by_cycle (log (world s')) = [0; 0; 1]%nat /\
     download_speed (results s') !! 0%nat = Some None /\
     upload_speed (results s') !! 0%nat = Some None /\
     download_speed (results s') !! 1%nat = Some None /\
     upload_speed (results s') !! 1%nat = Some None).
Proof.
  intros N.
  destruct (main_outcome E cfg HC Hsites Hdns Hports t0 fuel out s' Hrun)
    as (-> & HI & _ & _). fold N in HI.
  assert (Hcount : speed_tests_by_cycle (log (world s')) =
            map (fun i => if (Z.of_nat i mod 3 =? 0)%Z then 1%nat else 0%nat)
                (seq 1 N)).
  { unfold speed_tests_by_cycle. rewrite <- per_cycle_observed.
    rewrite (trace_speed_tests E cfg N _ (inv_trace _ _ _ _ _ HI)).
    apply map_ext. intros i. apply speed_part_length. }
  assert (Hnone : forall i, (i < N)%nat -> (Z.of_nat (S i) mod 3)%Z <> 0%Z ->
            download_speed (results s') !! i = Some None /\
            upload_speed (results s') !! i = Some None).
  { intros i Hi Hne. apply (inv_speed _ _ _ _ _ HI i Hi).
    by apply speed_part_nil. }
  split; [reflexivity|]. split; [exact Hcount|]. split; [exact Hnone|].
  intros HN. rewrite HN in Hcount, Hnone. split; [exact Hcount|].
  destruct (Hnone 0%nat) as [? ?]; [lia | done |].
  destruct (Hnone 1%nat) as [? ?]; [lia | done |].
  done.
Qed.

(** The scenario of the specification, with calls of no cost. *)
Lemma speed_test_every_third_cycle_witness :
  exists s',
    main calm_env scenario_config 4 (initial_state scenario_config 0) =
      Some (Returned tt, s') /\
    length (timestamp (results s')) = 3%nat /\
    speed_tests_by_cycle (log (world s')) = [0; 0; 1]%nat /\
    download_speed (results s') !! 0%nat = Some None /\
    download_speed (results s') !! 1%nat = Some None.
Proof.
  assert (HN : match main calm_env scenario_config 4
                       (initial_state scenario_config 0) with
               | Some (_, s) => length (timestamp (results s))
               | None => O
               end = 3%nat) by (vm_compute; reflexivity).
  destruct (main calm_env scenario_config 4 (initial_state scenario_config 0))
    as [[out s']|] eqn:Hrun; [|discriminate HN].
  destruct (speed_test_every_third_cycle calm_env scenario_config 0 4 out s'
              (steady_env_contract _ _ _)
              (NoDup_singleton _) (NoDup_nil_2) (NoDup_nil_2) Hrun)
    as (-> & _ & _ & H3).
  destruct (H3 HN) as (Hc & Hd0 & _ & Hd1 & _).
  exists s'. split; [reflexivity|]. split; [exact HN|].
  split; [exact Hc|]. split; [exact Hd0 | exact Hd1].
Defined.

(** C10.  In every run of [main], whatever the configuration, every
    connection attempt is made to the host ["example.com"], on one of the
    configured ports; and when sockets can be created, every cycle tries
    every configured port once, in order, on that host.  No
    configuration value reaches the host argument: [Config] has no field
    for it. *)
Theorem port_probe_host_is_example_com
  (E : Env) (cfg : Config) (t0 : Q) (fuel : nat) (out : res unit) (s' : State)
  (HC : LibraryContract E)
  (Hsites : NoDup (SITES cfg)) (Hdns : NoDup (DNS_SERVERS cfg))
  (Hports : NoDup (PORTS cfg))
  (Hrun : main E cfg fuel (initial_state cfg t0) = Some (out, s')) :
  Forall (fun c => forall host port,
            c = sock_connect_ex host port ->
            host = "example.com" /\ port ∈ PORTS cfg)
         (log (world s')) /\
  (sockets_ok E ->
   connections (log (world s')) =
     concat (replicate (length (timestamp (results s')))
               (map (sock_connect_ex "example.com") (PORTS cfg)))).
Proof.
  destruct (main_outcome E cfg HC Hsites Hdns Hports t0 fuel out s' Hrun)
    as (_ & HI & _ & _).
  destruct (trace_connections E cfg _ _ (inv_trace _ _ _ _ _ HI)) as [Hall Hok].
  rewrite connections_observed in Hall, Hok. split; [|exact Hok].
  apply Forall_forall. intros c Hc host port ->.
  rewrite Forall_forall in Hall.
  destruct (Hall (sock_connect_ex host port)) as (p & Hp & Heq).
  - apply list_elem_of_In, filter_In. split; [by apply list_elem_of_In | done].
  - injection Heq as -> ->. done.
Qed.

Lemma calm_env_nonneg : nonneg_delays calm_env.
Proof. intros n. simpl. lra. Qed.

Lemma port_probe_host_is_example_com_witness :
  exists out s',
    main calm_env source_config 11 (initial_state source_config 0) =
      Some (out, s') /\
    connections (log (world s')) =
      concat (replicate (length (timestamp (results s')))
                [ sock_connect_ex "example.com" 80;
                  sock_connect_ex "example.com" 443;
                  sock_connect_ex "example.com" 3389 ]).
Proof.
  destruct (main_terminates calm_env source_config (steady_env_contract _ _ _)
              source_config_sites_nodup source_config_dns_nodup
              source_config_ports_nodup 0 11 calm_env_nonneg)
    as (out & s' & Hrun); [reflexivity | simpl; lia | simpl; lia |].
  exists out, s'. split; [exact Hrun|].
  apply (port_probe_host_is_example_com calm_env source_config 0 11 out s'
           (steady_env_contract _ _ _)
           source_config_sites_nodup source_config_dns_nodup
           source_config_ports_nodup Hrun).
  intros n. reflexivity.
Defined.






(** C9.  With a positive interval and calls that take no negative time,
    [main] terminates: it returns as soon as the fuel covers the budget,
    and then stays returned (there is nothing after the loop).  Every
    iteration is followed by one wait of [INTERVAL] seconds; the loop
    leaves only when the clock shows the budget spent, and it never
    starts an iteration after that.  When the calls cost nothing the
    number of samples is the least [N] with [N * INTERVAL >= DURATION]:
    with an interval of one second and a budget of three, exactly three
    samples. *)
Theorem main_stops_when_budget_is_spent
  (E : Env) (cfg : Config) (t0 : Q) (fuel : nat)
  (HC : LibraryContract E)
  (Hsites : NoDup (SITES cfg)) (Hdns : NoDup (DNS_SERVERS cfg))
  (Hports : NoDup (PORTS cfg))
  (Hnn : nonneg_delays E) (Hpos : (0 < INTERVAL cfg)%Z)
  (Hfuel1 : (1 <= fuel)%nat)
  (Hfuel : (DURATION cfg <= (Z.of_nat fuel - 1) * INTERVAL cfg)%Z) :
  exists s',
    main E cfg fuel (initial_state cfg t0) = Some (Returned tt, s') /\
    let N := length (timestamp (results s')) in
    waits (log (world s')) = replicate N (asyncio_sleep (INTERVAL cfg)) /\
    (inject_Z (DURATION cfg) <= now (world s') - start_of E t0)%Q /\
    (N = O \/ ((Z.of_nat N - 1) * INTERVAL cfg < DURATION cfg)%Z) /\
    (zero_delays E -> (DURATION cfg <= Z.of_nat N * INTERVAL cfg)%Z) /\
    (zero_delays E -> INTERVAL cfg = 1%Z -> DURATION cfg = 3%Z -> N = 3%nat).
Proof.
  destruct (main_terminates E cfg HC Hsites Hdns Hports t0 fuel Hnn Hpos
              Hfuel1 Hfuel) as (out & s' & Hrun).
  destruct (main_outcome E cfg HC Hsites Hdns Hports t0 fuel out s' Hrun)
    as (-> & HI & Hexit & Hbound).
  exists s'. split; [exact Hrun|]. intros N. fold N in HI, Hbound.
  assert (Hwait : (wait cfg == inject_Z (INTERVAL cfg))%Q).
  { unfold wait. by rewrite Z.max_l by lia. }
  assert (HB : N = O \/ ((Z.of_nat N - 1) * INTERVAL cfg < DURATION cfg)%Z).
  { destruct (Hbound Hnn) as [H0|Hb]; [by left | right].
    rewrite Zlt_Qlt, inject_Z_mult.
    unfold Z.sub. rewrite inject_Z_plus, inject_Z_opp.
    change (inject_Z 1) with 1%Q. rewrite Hwait in Hb. lra. }
  assert (HZ : zero_delays E -> (DURATION cfg <= Z.of_nat N * INTERVAL cfg)%Z).
  { intros Hz. pose proof (inv_clock_eq _ _ _ _ _ HI Hz) as Heq.
    rewrite Zle_Qle, inject_Z_mult. rewrite Hwait in Heq. lra. }
  split.
  - rewrite <- waits_observed.
    apply (trace_waits E cfg _ _ (inv_trace _ _ _ _ _ HI)).
  - split; [exact Hexit|]. split; [exact HB|]. split; [exact HZ|].
    intros Hz H1 H3. specialize (HZ Hz). rewrite H1, H3 in *. lia.
Qed.

Lemma calm_env_zero : zero_delays calm_env.
Proof. intros n. reflexivity. Qed.

(** The scenario of the specification: an interval of one second, a
    budget of three and calls of no cost give exactly three samples. *)
Lemma main_stops_when_budget_is_spent_witness :
  exists s',
    main calm_env scenario_config 4 (initial_state scenario_config 0) =
      Some (Returned tt, s') /\
    length (timestamp (results s')) = 3%nat /\
    waits (log (world s')) =
      [asyncio_sleep 1; asyncio_sleep 1; asyncio_sleep 1].
Proof.
  destruct (main_stops_when_budget_is_spent calm_env scenario_config 0 4
              (steady_env_contract _ _ _)
              (NoDup_singleton _) (NoDup_nil_2) (NoDup_nil_2)
              calm_env_nonneg)
    as (s' & Hrun & Hw & _ & _ & _ & H3);
    [reflexivity | simpl; lia | simpl; lia |].
  specialize (H3 calm_env_zero eq_refl eq_refl).
  exists s'. split; [exact Hrun|]. split; [exact H3|].
  rewrite Hw, H3. reflexivity.
Defined.

(** ** The report and the unavailable marker *)

(** The state a run with the source configuration ends in. *)
Definition final_state (E : Env) (fuel : nat) : State :=
  match main E source_config fuel (initial_state source_config 0) with
  | Some (_, s) => s
  | None => initial_state source_config 0
  end.

(** The cell of the report in row [i] (row 0 is the header) and column
    [j]. *)
Definition report_cell (s : State) (i j : nat) : option cell :=
  match files (world s) !! OUTPUT_CSV source_config with
  | Some (CsvFile rows) =>
      match rows !! i with
      | Some row => row !! j
      | None => None
      end
  | _ => None
  end.

(** Calls take a second each; the speed test measures a download of
    0 bit/s (the transfer stalls) and an upload of 10 Mbit/s. *)
Definition stalled_env : Env :=
  steady_env 1 (Some 0%Q) (Some (10000000 # 1)%Q).

(** Both directions measure 0 bit/s. *)
Definition blocked_env : Env := steady_env 1 (Some 0%Q) (Some 0%Q).

(** The speed test fails in its last call. *)
Definition failing_env : Env := steady_env 1 (Some 0%Q) None.

(** C7.  The report does not keep an unavailable entry apart from a
    true zero.  In the run with [stalled_env], sample 1 has no download
    measurement ([None]) and sample 3 has a measured download of 0.0
    Mbps next to an upload of 10 Mbps; [x or "N/A"] writes the same
    cell ["N/A"] for both (column 14 is [Download_Speed]), because 0.0
    is falsy.  [plot_results] tests [is not None] and keeps them apart. *)
Theorem csv_renders_measured_zero_as_unavailable :
  main stalled_env source_config 11 (initial_state source_config 0) =
    Some (Returned tt, final_state stalled_env 11) /\
  download_speed (results (final_state stalled_env 11)) !! 0%nat = Some None /\
  download_speed (results (final_state stalled_env 11)) !! 2%nat =
    Some (Some (0 / 1000000)%Q) /\
  upload_speed (results (final_state stalled_env 11)) !! 2%nat =
    Some (Some ((10000000 # 1) / 1000000)%Q) /\
  report_cell (final_state stalled_env 11) 1 14 = Some (CStr "N/A") /\
  report_cell (final_state stalled_env 11) 3 14 = Some (CStr "N/A") /\
  report_cell (final_state stalled_env 11) 3 15 =
    Some (CFloat ((10000000 # 1) / 1000000)%Q) /\
  py_or (Some 0%Q) "N/A" = py_or None "N/A" /\
  nan_of (Some 0%Q) <> nan_of None.
Proof.
  split; [vm_compute; reflexivity|].
  split; [vm_compute; reflexivity|].
  split; [vm_compute; reflexivity|].
  split; [vm_compute; reflexivity|].
  split; [vm_compute; reflexivity|].
  split; [vm_compute; reflexivity|].
  split; [vm_compute; reflexivity|].
  split; [reflexivity | discriminate].
Qed.

(** C8.  No parser recovers the series from the report: the runs with
    [blocked_env] (the speed test measures 0.0 and 0.0) and with
    [failing_env] (the speed test fails) leave different series and the
    same report. *)
Theorem csv_export_cannot_be_parsed_back :
  ~ exists parse : option file -> Results,
      forall (E : Env) (fuel : nat) (s' : State),
        LibraryContract E ->
        main E source_config fuel (initial_state source_config 0) =
          Some (Returned tt, s') ->
        parse (files (world s') !! OUTPUT_CSV source_config) = results s'.
Proof.
  intros (parse & Hparse).
  assert (H1 : main blocked_env source_config 11 (initial_state source_config 0)
               = Some (Returned tt, final_state blocked_env 11))
    by (vm_compute; reflexivity).
  assert (H2 : main failing_env source_config 11 (initial_state source_config 0)
               = Some (Returned tt, final_state failing_env 11))
    by (vm_compute; reflexivity).
  assert (Hfiles : files (world (final_state blocked_env 11))
                     !! OUTPUT_CSV source_config =
                   files (world (final_state failing_env 11))
                     !! OUTPUT_CSV source_config)
    by (vm_compute; reflexivity).
  assert (Hne : download_speed (results (final_state blocked_env 11)) !! 2%nat
                <> download_speed (results (final_state failing_env 11)) !! 2%nat)
    by (vm_compute; discriminate).
  pose proof (Hparse blocked_env 11%nat (final_state blocked_env 11)
                (steady_env_contract _ _ _) H1) as P1.
  pose proof (Hparse failing_env 11%nat (final_state failing_env 11)
                (steady_env_contract _ _ _) H2) as P2.
  apply Hne. rewrite <- P1, <- P2, Hfiles. reflexivity.
Qed.

(** * Further properties of the code *)

(** ** The probes, call by call *)

(** The calls made from [s] to [s']. *)
Definition calls_since (s s' : State) : list call :=
  drop (length (log (world s))) (log (world s')).

Lemma drop_app_length' {A} (l k : list A) : drop (length l) (l ++ k) = k.
Proof. by rewrite drop_app_length. Qed.

Section ProbeCalls.

Context (E : Env).

(** X1.  Under the contract of [socket], [check_dns] always returns and
    never raises.  It returns a time exactly when the socket could be
    created and the reverse lookup of [dns_server] succeeded, and that
    time is the wall-clock time between the two clock readings around the
    lookup, in milliseconds; any socket error gives [None].  On success
    it has made five calls: the UDP socket it creates and the two second
    timeout it sets on it are never used, the only call that receives
    [dns_server] is [socket.gethostbyaddr]. *)
Theorem check_dns_time_iff_resolved (dns_server : string) (s : State)
  (HC : LibraryContract E) :
  let n := length (log (world s)) in
  let t0 := (now (world s) + delay E n + delay E (S n) + delay E (S (S n)))%Q in
  let t1 := (t0 + delay E (S (S (S n))) + delay E (S (S (S (S n)))))%Q in
  let resolved :=
    socket_answer E n = Returned tt /\
    gethostbyaddr_answer E (S (S (S n))) dns_server = Returned tt in
  exists m : option Q,
    fst (check_dns E dns_server s) = Returned m /\
    (forall x, m = Some x <-> resolved /\ x = ((t1 - t0) * 1000)%Q) /\
    (m = None <-> ~ resolved) /\
    (resolved ->
     calls_since s (snd (check_dns E dns_server s)) =
       [ socket_socket SOCK_DGRAM; sock_settimeout 2; time_time;
         socket_gethostbyaddr dns_server; time_time ]).
Proof.
  intros n t0 t1 resolved. subst resolved.
  unfold calls_since, check_dns, try_except, bind, py_socket, py_settimeout,
    py_time_time, py_gethostbyaddr, perform, ret.
  cbn [world log now results fst snd]. fold n.
  destruct (socket_answer E n) as [[]|e] eqn:Hsock.
  2:{ rewrite (socket_raises E HC _ _ Hsock). cbn [fst snd].
      eexists; split; [reflexivity|]. split; [|split].
      - intros x; split; [discriminate | intros [[[=] _] _]].
      - split; [intros _ [[=] _] | reflexivity].
      - intros [[=] _]. }
  cbn [world log now results fst snd]. rewrite ?length_snoc; fold n.
  destruct (gethostbyaddr_answer E (S (S (S n))) dns_server) as [[]|e] eqn:Hres.
  2:{ rewrite (gethostbyaddr_raises E HC _ _ _ Hres). cbn [fst snd].
      eexists; split; [reflexivity|]. split; [|split].
      - intros x; split; [discriminate | intros [[_ [=]] _]].
      - split; [intros _ [_ [=]] | reflexivity].
      - intros [_ [=]]. }
  cbn [world log now results fst snd]. rewrite ?length_snoc; fold n.
  eexists; split; [reflexivity|]. split; [|split].
  - intros x; split.
    + intros [= <-]. done.
    + intros [_ ->]. reflexivity.
  - split; [discriminate|]. intros Hn. exfalso. by apply Hn.
  - intros _. rewrite <- !app_assoc. apply drop_app_length'.
Qed.


(** X3.  [check_site] lets through exactly the exceptions of the GET
    that are not [RequestException]s ([KeyboardInterrupt], for one):
    those are raised to the caller unchanged. *)
Theorem check_site_raises_iff_foreign_exception
  (site : string) (s : State) (e : exn) :
  fst (check_site E site s) = Raised e <->
  get_answer E (S (length (log (world s)))) site = Raised e /\
  isinstance e RequestException = false.
Proof.
  unfold check_site, try_except, bind, py_time_time, py_requests_get, perform, ret.
  cbn [world log now results fst snd]. rewrite ?length_snoc.
  destruct (get_answer E (S (length (log (world s)))) site) as [r|e'] eqn:Hget.
  - cbn [fst snd]. split; [discriminate | intros [[=] _]].
  - cbn [fst snd]. destruct (isinstance e' RequestException) eqn:Hi; cbn [fst].
    + split; [discriminate|]. intros [[= ->] Hf]. congruence.
    + split.
      * intros [= ->]. done.
      * intros [[= ->] _]. reflexivity.
Qed.

Ltac list_member :=
  rewrite ?elem_of_cons, ?elem_of_nil;
  repeat split; intros;
  repeat match goal with
  | H : _ \/ _ |- _ => destruct H
  | H : _ /\ _ |- _ => destruct H
  | H : exists _, _ |- _ => destruct H
  | H : False |- _ => destruct H
  end;
  try discriminate; try congruence; eauto 10.

(** Reduce [calls_since] of an explicit final log to the list of calls. *)
Ltac new_calls :=
  cbn [world log snd]; rewrite <- ?app_assoc; rewrite drop_app_length';
  cbn [app].

(** X4.  [check_port] closes the socket exactly when [connect_ex]
    returned (with any code): when the socket could not be created there
    is nothing to close, and when [connect_ex] raises (the host name does
    not resolve, say) the handler returns [False] and the socket is left
    open. *)
Theorem check_port_closes_socket_iff_connect_returns
  (host : string) (port : Z) (s : State) :
  sock_close ∈ calls_since s (snd (check_port E host port s)) <->
  socket_answer E (length (log (world s))) = Returned tt /\
  exists code,
    connect_ex_answer E (S (S (length (log (world s))))) host port =
      Returned code.
Proof.
  unfold calls_since, check_port, try_except, bind, py_socket, py_settimeout,
    py_connect_ex, py_close, perform, ret.
  cbn [world log now results fst snd].
  destruct (socket_answer E (length (log (world s)))) as [[]|e] eqn:Hsock.
  2:{ destruct (isinstance e socket_error); new_calls; list_member. }
  cbn [world log now results fst snd]. rewrite ?length_snoc.
  destruct (connect_ex_answer E _ host port) as [code|e] eqn:Hconn.
  - new_calls. split; [eauto|]. intros _. list_member.
  - destruct (isinstance e socket_error); new_calls;
      (split; [list_member | intros [_ [code [=]]]]).
Qed.

(** X5.  [measure_speed] makes its four calls in order and stops at the
    first that fails: the server selection is attempted only on a
    configured client, the download only after a server was selected, the
    upload only after the download returned. *)
Theorem measure_speed_stops_at_first_failure (s : State) :
  let n := length (log (world s)) in
  let evs := calls_since s (snd (measure_speed E s)) in
  evs `prefix_of`
    [speedtest_Speedtest; st_get_best_server; st_download; st_upload] /\
  speedtest_Speedtest ∈ evs /\
  (st_get_best_server ∈ evs <-> Speedtest_answer E n = Returned tt) /\
  (st_download ∈ evs <->
     Speedtest_answer E n = Returned tt /\
     get_best_server_answer E (S n) = Returned tt) /\
  (st_upload ∈ evs <->
     Speedtest_answer E n = Returned tt /\
     get_best_server_answer E (S n) = Returned tt /\
     exists d, download_answer E (S (S n)) = Returned d).
Proof.
  intros n evs. subst evs n.
  unfold calls_since, measure_speed, try_except, bind, py_Speedtest,
    py_get_best_server, py_download, py_upload, perform, ret.
  cbn [world log now results fst snd].
  destruct (Speedtest_answer E (length (log (world s)))) as [[]|e] eqn:H1.
  2:{ destruct (isinstance e SpeedtestException); new_calls;
        (split; [by eexists|]); split_and!; list_member. }
  cbn [world log now results fst snd]. rewrite ?length_snoc.
  destruct (get_best_server_answer E _) as [[]|e] eqn:H2.
  2:{ destruct (isinstance e SpeedtestException); new_calls;
        (split; [by eexists|]); split_and!; list_member. }
  cbn [world log now results fst snd]. rewrite ?length_snoc.
  destruct (download_answer E _) as [d|e] eqn:H3.
  2:{ destruct (isinstance e SpeedtestException); new_calls;
        (split; [by eexists|]); split_and!; list_member. }
  cbn [world log now results fst snd]. rewrite ?length_snoc.
  destruct (upload_answer E _) as [u|e] eqn:H4.
  2:{ destruct (isinstance e SpeedtestException); new_calls;
        (split; [by eexists|]); split_and!; list_member. }
  new_calls. (split; [by eexists|]); split_and!; list_member.
Qed.

End ProbeCalls.

Lemma check_dns_time_iff_resolved_witness :
  LibraryContract (status_env 200) /\
  exists x,
    fst (check_dns (status_env 200) "8.8.8.8" (initial_state source_config 0)) =
      Returned (Some x) /\
    (x == 200)%Q.
Proof.
  assert (HC : LibraryContract (status_env 200))
    by (split; simpl; intros; discriminate).
  split; [exact HC|].
  destruct (check_dns_time_iff_resolved (status_env 200) "8.8.8.8"
              (initial_state source_config 0) HC) as (m & Hret & Hsome & _ & _).
  eexists. split.
  - rewrite Hret. f_equal. apply Hsome. split; [split; reflexivity | reflexivity].
  - reflexivity.
Defined.


(** ** The report, row by row *)

Section Report.

Context (E : Env) (cfg : Config).

(** [row] is what [save_to_csv] writes for sample [i] of [r]: the
    timestamp, then for every configured site and DNS server, in order,
    [reading or "N/A"], then for every configured port the recorded
    boolean, then the download and upload readings, [or "N/A"]. *)
Definition row_of_sample (r : Results) (i : nat) (row : list cell) : Prop :=
  exists ts cs cd cp d u,
    timestamp r !! i = Some ts /\
    download_speed r !! i = Some d /\
    upload_speed r !! i = Some u /\
    Forall2 (fun site c => exists col v,
               site_latencies r !! site = Some col /\ col !! i = Some v /\
               c = py_or v "N/A") (SITES cfg) cs /\
    Forall2 (fun dns c => exists col v,
               dns_times r !! dns = Some col /\ col !! i = Some v /\
               c = py_or v "N/A") (DNS_SERVERS cfg) cd /\
    Forall2 (fun port c => exists col v,
               port_status r !! port = Some col /\ col !! i = Some v /\
               c = CBool v) (PORTS cfg) cp /\
    row = CStr ts :: cs ++ cd ++ cp ++ [py_or d "N/A"; py_or u "N/A"].

Lemma csv_cells_shape `{Countable K} {V} (keys : list K)
  (m : gmap K (list V)) (i : nat) (f : V -> cell) (k : nat)
  (row : list cell) s :
  (forall key, key ∈ keys ->
     exists col, m !! key = Some col /\ length col = k) ->
  (i < k)%nat ->
  exists cells,
    fold_each keys row (fun row key =>
      let* col := getitem KeyError m key in
      let* v := getitem IndexError col i in
      ret (row ++ [f v])) s = (Returned (row ++ cells), s) /\
    Forall2 (fun key c => exists col v,
               m !! key = Some col /\ col !! i = Some v /\ c = f v) keys cells.
Proof.
  intros Hcols Hi. revert row.
  induction keys as [|key keys IH]; intros row.
  - exists []. split; [by rewrite app_nil_r | constructor].
  - destruct (Hcols key) as (col & Hcol & Hlen); [by left|].
    destruct (lookup_lt_is_Some_2 col i) as [v Hv]; [lia|].
    destruct (IH (fun key' Hin => Hcols key' (list_elem_of_further _ _ _ Hin))
                 (row ++ [f v])) as (cells & Hrun & Hcells).
    exists (f v :: cells). split.
    + cbn [fold_each].
      rewrite (bind_returned _ _ s (row ++ [f v]) s).
      * rewrite Hrun. by rewrite <- app_assoc.
      * apply (read_cell_pure _ _ _ _ _ (fun v => row ++ [f v]) _ Hcol Hv).
    + constructor; [|exact Hcells]. by exists col, v.
Qed.

Lemma csv_row_shape k i s :
  aligned cfg k (results s) -> (i < k)%nat ->
  exists row, csv_row cfg i s = (Returned row, s) /\
              row_of_sample (results s) i row.
Proof.
  intros [Ht Hs Hd Hp Hdl Hul] Hi. unfold csv_row.
  rewrite (bind_returned get_results _ s (results s) s eq_refl).
  destruct (lookup_lt_is_Some_2 (timestamp (results s)) i) as [ts Hts]; [lia|].
  rewrite (bind_returned _ _ s ts s (getitem_returned _ _ _ _ _ Hts)).
  destruct (csv_cells_shape (SITES cfg) (site_latencies (results s)) i
              (fun v => py_or v "N/A") k [CStr ts] s Hs Hi) as (cs & H1 & F1).
  rewrite (bind_returned _ _ _ _ _ H1).
  destruct (csv_cells_shape (DNS_SERVERS cfg) (dns_times (results s)) i
              (fun v => py_or v "N/A") k ([CStr ts] ++ cs) s Hd Hi)
    as (cd & H2 & F2).
  rewrite (bind_returned _ _ _ _ _ H2).
  destruct (csv_cells_shape (PORTS cfg) (port_status (results s)) i
              CBool k (([CStr ts] ++ cs) ++ cd) s Hp Hi) as (cp & H3 & F3).
  rewrite (bind_returned _ _ _ _ _ H3).
  destruct (lookup_lt_is_Some_2 (download_speed (results s)) i) as [d Hdv]; [lia|].
  destruct (lookup_lt_is_Some_2 (upload_speed (results s)) i) as [u Huv]; [lia|].
  rewrite (bind_returned _ _ s d s (getitem_returned _ _ _ _ _ Hdv)).
  rewrite (bind_returned _ _ s u s (getitem_returned _ _ _ _ _ Huv)).
  eexists. split; [reflexivity|].
  exists ts, cs, cd, cp, d, u. repeat (split; [done|]).
  cbn [app]. by rewrite <- !app_assoc.
Qed.


Lemma save_to_csv_rows (k : nat) (s : State) :
  aligned cfg k (results s) ->
  exists s' rows,
    save_to_csv E cfg s = (Returned tt, s') /\
    results s' = results s /\
    files (world s') =
      <[OUTPUT_CSV cfg := CsvFile (headers cfg :: rows)]> (files (world s)) /\
    Forall2 (row_of_sample (results s)) (seq 0 k) rows.
Proof.
  intros Hal.
  assert (Hwp : wp E (save_to_csv E cfg) s (fun r s' evs =>
            r = Returned tt /\ results s' = results s /\
            exists rows,
              Forall2 (row_of_sample (results s)) (seq 0 k) rows /\
              files (world s') =
                <[OUTPUT_CSV cfg := CsvFile (headers cfg :: rows)]>
                  (files (world s)))).
  { unfold save_to_csv, py_open_w.
    apply wp_bind, wp_bind, wp_perform; [reflexivity|]. cbn beta iota.
    apply wp_update_files. apply wp_bind.
    apply (writerow_spec _ _ _ []); [cbn; apply lookup_insert_eq|].
    intros s1 Hr1 Hf1. cbn in Hr1, Hf1. rewrite insert_insert_eq in Hf1.
    apply wp_bind, wp_get_results. rewrite Hr1, (al_timestamp _ _ _ Hal).
    eapply wp_mono.
    - apply (wp_for_each E (fun done s2 evs =>
        results s2 = results s /\
        exists rows, Forall2 (row_of_sample (results s)) done rows /\
          files (world s2) =
            <[OUTPUT_CSV cfg := CsvFile (headers cfg :: rows)]>
              (files (world s)))).
      + split; [done|]. exists []. split; [constructor | done].
      + intros done i rest s2 evs2 Hl (Hr2 & rows & HF & Hf2).
        assert (Hi : (i < k)%nat).
        { assert (Hin : i ∈ seq 0 k)
            by (rewrite Hl; apply elem_of_app; right; by left).
          apply elem_of_seq in Hin. lia. }
        destruct (csv_row_shape k i s2) as (row & Hrow & Hshape);
          [by rewrite Hr2 | done |].
        rewrite Hr2 in Hshape.
        apply wp_bind. eapply wp_pure; [exact Hrow|].
        apply (writerow_spec _ _ _ (headers cfg :: rows)).
        { rewrite Hf2. apply lookup_insert_eq. }
        intros s3 Hr3 Hf3. split; [done|]. split; [congruence|].
        exists (rows ++ [row]). split.
        * apply Forall2_app; [exact HF | by constructor].
        * by rewrite Hf3, Hf2, insert_insert_eq.
    - intros r s' evs _ (-> & Hr & rows & HF & Hf).
      split; [done|]. split; [done|]. by exists rows. }
  destruct Hwp as (evs & _ & Hret & Hr & rows & HF & Hf).
  destruct (save_to_csv E cfg s) as [r s'] eqn:Hrun. cbn [fst snd] in *.
  subst r. by exists s', rows.
Qed.

(** How a float-or-[None] reading [v] shows in a cell [c] of the report. *)
Definition rendered (v : option Q) (c : option cell) : Prop :=
  (c = Some (CStr "N/A") <-> v = None \/ exists q, v = Some q /\ (q == 0)%Q) /\
  (forall q, v = Some q -> ~ (q == 0)%Q -> c = Some (CFloat q)).

Lemma py_or_rendered v : rendered v (Some (py_or v "N/A")).
Proof.
  unfold rendered, py_or, py_truthy. destruct v as [q|].
  - destruct (Qeq_bool q 0) eqn:Hq; cbn [negb].
    + apply Qeq_bool_eq in Hq. split.
      * split; [intros _; right; by exists q | done].
      * intros q' [= <-] Hne. by destruct Hne.
    + apply Qeq_bool_neq in Hq. split.
      * split; [discriminate|]. intros [[=] | (q' & [= <-] & H0)]. by destruct Hq.
      * by intros q' [= <-] _.
  - split; [split; [by left | done] | discriminate].
Qed.


(** X7.  In the report written by [save_to_csv], the cell of a latency,
    a DNS time or a speed reads ["N/A"] exactly when the reading is
    [None] or is zero, and is the number itself otherwise: a measured
    0.0 and a missing measurement are written alike.  The cell of site
    [j] is in column [1 + j], that of DNS server [j] follows the sites,
    the two speeds are the last two columns. *)
Theorem report_cell_unavailable_iff_none_or_zero (k i : nat) (s : State)
  (Hal : aligned cfg k (results s)) (Hi : (i < k)%nat) :
  let r := results s in
  let ns := length (SITES cfg) in
  let nd := length (DNS_SERVERS cfg) in
  let np := length (PORTS cfg) in
  exists s' rows row,
    save_to_csv E cfg s = (Returned tt, s') /\
    files (world s') !! OUTPUT_CSV cfg = Some (CsvFile (headers cfg :: rows)) /\
    rows !! i = Some row /\
    (forall j site col v,
       SITES cfg !! j = Some site -> site_latencies r !! site = Some col ->
       col !! i = Some v -> rendered v (row !! (1 + j)%nat)) /\
    (forall j dns col v,
       DNS_SERVERS cfg !! j = Some dns -> dns_times r !! dns = Some col ->
       col !! i = Some v -> rendered v (row !! (1 + ns + j)%nat)) /\
    (forall d, download_speed r !! i = Some d ->
       rendered d (row !! (1 + ns + nd + np)%nat)) /\
    (forall u, upload_speed r !! i = Some u ->
       rendered u (row !! (2 + ns + nd + np)%nat)).
Proof.
  intros r ns nd np.
  destruct (save_to_csv_rows k s Hal) as (s' & rows & Hrun & Hr & Hf & HF).
  destruct (Forall2_lookup_l _ _ _ i i HF) as (row & Hrow & Hshape).
  { by apply lookup_seq_lt. }
  exists s', rows, row. split; [done|]. split.
  { rewrite Hf. apply lookup_insert_eq. }
  split; [done|].
  destruct Hshape as (ts & cs & cd & cp & d & u & Hts & Hd & Hu & F1 & F2 & F3 & ->).
  pose proof (Forall2_length _ _ _ F1) as L1.
  pose proof (Forall2_length _ _ _ F2) as L2.
  pose proof (Forall2_length _ _ _ F3) as L3.
  fold ns in L1. fold nd in L2. fold np in L3.
  split; [|split; [|split]].
  - intros j site col v Hj Hcol Hv.
    destruct (Forall2_lookup_l _ _ _ j site F1 Hj)
      as (c & Hc & col' & v' & Hcol' & Hv' & ->).
    fold r in Hcol'. rewrite Hcol in Hcol'. injection Hcol' as <-.
    rewrite Hv in Hv'. injection Hv' as <-.
    cbn [Nat.add]; rewrite lookup_cons; cbn beta iota. rewrite lookup_app_l by (apply lookup_lt_Some in Hc; lia).
    rewrite Hc. apply py_or_rendered.
  - intros j dns col v Hj Hcol Hv.
    destruct (Forall2_lookup_l _ _ _ j dns F2 Hj)
      as (c & Hc & col' & v' & Hcol' & Hv' & ->).
    fold r in Hcol'. rewrite Hcol in Hcol'. injection Hcol' as <-.
    rewrite Hv in Hv'. injection Hv' as <-.
    cbn [Nat.add]; rewrite lookup_cons; cbn beta iota. rewrite lookup_app_r by lia.
    rewrite lookup_app_l by (apply lookup_lt_Some in Hc; lia).
    replace (ns + j - length cs)%nat with j by lia.
    rewrite Hc. apply py_or_rendered.
  - intros d' Hd'. fold r in Hd. rewrite Hd in Hd'. injection Hd' as <-.
    cbn [Nat.add]; rewrite lookup_cons; cbn beta iota. rewrite lookup_app_r by lia.
    rewrite lookup_app_r by lia. rewrite lookup_app_r by lia.
    replace (ns + nd + np - length cs - length cd - length cp)%nat with O by lia.
    apply py_or_rendered.
  - intros u' Hu'. fold r in Hu. rewrite Hu in Hu'. injection Hu' as <-.
    cbn [Nat.add]; rewrite lookup_cons; cbn beta iota. rewrite lookup_app_r by lia.
    rewrite lookup_app_r by lia. rewrite lookup_app_r by lia.
    replace (S (ns + nd + np) - length cs - length cd - length cp)%nat with 1%nat by lia.
    apply py_or_rendered.
Qed.

End Report.

(** A series of one sample: the site answered in no measurable time, the
    speed test measured a download of 0 and an upload of 1 Mbit/s. *)
Definition sample_state : State := {|
  results := {|
    timestamp := ["2025-01-01 00:00:00"];
    site_latencies := {[ "https://example.com" := [Some 0%Q] ]};
    dns_times := ∅;
    port_status := ∅;
    download_speed := [Some 0%Q];
    upload_speed := [Some 1%Q]
  |};
  world := initial_world 0
|}.

Lemma sample_state_aligned : aligned scenario_config 1 (results sample_state).
Proof.
  split; cbn; try reflexivity; intros x Hx.
  - apply list_elem_of_singleton in Hx as ->. by eexists.
  - by apply elem_of_nil in Hx.
  - by apply elem_of_nil in Hx.
Qed.


Lemma report_cell_unavailable_iff_none_or_zero_witness :
  exists s' rows row,
    save_to_csv calm_env scenario_config sample_state = (Returned tt, s') /\
    files (world s') !! OUTPUT_CSV scenario_config =
      Some (CsvFile (headers scenario_config :: rows)) /\
    rows !! 0%nat = Some row /\
    (forall j site col v,
       SITES scenario_config !! j = Some site ->
       site_latencies (results sample_state) !! site = Some col ->
       col !! 0%nat = Some v -> rendered v (row !! (1 + j)%nat)) /\
    (forall j dns col v,
       DNS_SERVERS scenario_config !! j = Some dns ->
       dns_times (results sample_state) !! dns = Some col ->
       col !! 0%nat = Some v -> rendered v (row !! (1 + 1 + j)%nat)) /\
    (forall d, download_speed (results sample_state) !! 0%nat = Some d ->
       rendered d (row !! (1 + 1 + 0 + 0)%nat)) /\
    (forall u, upload_speed (results sample_state) !! 0%nat = Some u ->
       rendered u (row !! (2 + 1 + 0 + 0)%nat)).
Proof.
  exact (report_cell_unavailable_iff_none_or_zero calm_env scenario_config 1 0
           sample_state sample_state_aligned (Nat.lt_0_1)).
Defined.

(** ** The figure *)

Section Figure.

Context (E : Env) (cfg : Config).

(** Every column that [plot_results] draws is as long as the timestamp
    column.  The port columns are not among them. *)
Definition plottable (r : Results) : Prop :=
  (forall site, site ∈ SITES cfg ->
     exists col, site_latencies r !! site = Some col /\
                 length col = length (timestamp r)) /\
  (forall dns, dns ∈ DNS_SERVERS cfg ->
     exists col, dns_times r !! dns = Some col /\
                 length col = length (timestamp r)) /\
  length (download_speed r) = length (timestamp r) /\
  length (upload_speed r) = length (timestamp r).

(** The lines of one panel: one per key, in order, over the whole
    timestamp column, with [None] drawn as [np.nan]. *)
Definition lines_of {K} `{Countable K} (keys : list K)
  (m : gmap K (list (option Q))) (x : list string) (label : K -> string)
  (lines : list line) : Prop :=
  Forall2 (fun key l => exists col,
             m !! key = Some col /\ l = mk_line (label key) x (map nan_of col))
          keys lines.

(** The loop that draws a panel either draws every line or stops with
    [ValueError] at the first column whose length is not that of [x]. *)
Lemma plot_lines_result `{Countable K} (keys : list K)
  (m : gmap K (list (option Q))) (x : list string) (label : K -> string)
  (acc : list line) s :
  (forall key, key ∈ keys -> is_Some (m !! key)) ->
  (exists lines,
     fold_each keys acc (fun lines key =>
       let* col := getitem KeyError m key in
       let* l := plt_plot x (map nan_of col) (label key) in
       ret (lines ++ [l])) s = (Returned (acc ++ lines), s) /\
     lines_of keys m x label lines /\
     forall key, key ∈ keys ->
       exists col, m !! key = Some col /\ length col = length x) \/
  (fold_each keys acc (fun lines key =>
       let* col := getitem KeyError m key in
       let* l := plt_plot x (map nan_of col) (label key) in
       ret (lines ++ [l])) s = (Raised ValueError, s) /\
   exists key col, key ∈ keys /\ m !! key = Some col /\ length col <> length x).
Proof.
  revert acc. induction keys as [|key keys IH]; intros acc Hkeys.
  - left. exists []. rewrite app_nil_r. split; [done|]. split; [constructor|].
    intros key Hin. by apply elem_of_nil in Hin.
  - destruct (Hkeys key) as [col Hcol]; [by left|].
    cbn [fold_each].
    destruct (decide (length x = length col)) as [Hlen|Hlen].
    + assert (Hbody :
        (let* col := getitem KeyError m key in
         let* l := plt_plot x (map nan_of col) (label key) in
         ret (acc ++ [l])) s =
        (Returned (acc ++ [mk_line (label key) x (map nan_of col)]), s)).
      { unfold bind, getitem, plt_plot. rewrite Hcol. cbn [ret].
        rewrite length_map, bool_decide_eq_true_2 by done. reflexivity. }
      rewrite (bind_returned _ _ _ _ _ Hbody).
      destruct (IH (acc ++ [mk_line (label key) x (map nan_of col)])
                  (fun k Hin => Hkeys k (list_elem_of_further _ _ _ Hin)))
        as [(lines & Hrun & HF & Hall) | (Hrun & k' & col' & Hin & Hc' & Hne)].
      * left. exists (mk_line (label key) x (map nan_of col) :: lines).
        rewrite Hrun, <- app_assoc. split; [done|]. split.
        -- constructor; [by exists col | exact HF].
        -- intros k' Hin. apply elem_of_cons in Hin as [-> | Hin]; [|by apply Hall].
           by exists col.
      * right. rewrite Hrun. split; [done|]. exists k', col'.
        split; [by right | done].
    + right. split.
      * unfold bind, getitem, plt_plot. rewrite Hcol. cbn [ret].
        rewrite length_map, bool_decide_eq_false_2 by done. reflexivity.
      * exists key, col. split; [by left|]. split; [done | congruence].
Qed.

(** X8.  On a series whose plotted columns have the length of the
    timestamp column, [plot_results] returns, leaves [results] alone and
    makes one call, [plt.savefig]: the file [network_monitoring_plot.png]
    is replaced by a figure of three panels.  The first has one line per
    configured site, the second one per DNS server (labelled ["DNS "]
    and the address), the third the download and the upload line; every
    line runs over the whole timestamp column, with [None] drawn as
    [np.nan] and every number, zero too, as itself.  No panel shows the
    port columns. *)
Theorem plot_results_draws_every_series (s : State)
  (Hp : plottable (results s)) :
  let r := results s in
  exists s' lines1 lines2,
    plot_results E cfg s = (Returned tt, s') /\
    results s' = r /\
    calls_since s s' = [plt_savefig "network_monitoring_plot.png"] /\
    files (world s') =
      <["network_monitoring_plot.png" := PngFile
          [ mk_panel "Latencia de Sitios Web (ms)" lines1;
            mk_panel "Tiempo de Resolución DNS (ms)" lines2;
            mk_panel "Velocidad de Red"
              [ mk_line "Descarga (Mbps)" (timestamp r)
                  (map nan_of (download_speed r));
                mk_line "Subida (Mbps)" (timestamp r)
                  (map nan_of (upload_speed r)) ] ]]> (files (world s)) /\
    lines_of (SITES cfg) (site_latencies r) (timestamp r) (fun site => site)
      lines1 /\
    lines_of (DNS_SERVERS cfg) (dns_times r) (timestamp r)
      (fun dns => "DNS " +:+ dns) lines2.
Proof.
  intros r. destruct Hp as (Hs & Hd & Hdl & Hul). fold r in Hs, Hd, Hdl, Hul.
  destruct (plot_lines_result (SITES cfg) (site_latencies r) (timestamp r)
              (fun site => site) [] s)
    as [(lines1 & H1 & F1 & _) | (_ & site & col & Hin & Hcol & Hne)].
  { intros site Hin. destruct (Hs site Hin) as (col & -> & _). by eexists. }
  2:{ destruct (Hs site Hin) as (col' & Hcol' & Hlen). congruence. }
  destruct (plot_lines_result (DNS_SERVERS cfg) (dns_times r) (timestamp r)
              (fun dns => "DNS " +:+ dns) [] s)
    as [(lines2 & H2 & F2 & _) | (_ & dns & col & Hin & Hcol & Hne)].
  { intros dns Hin. destruct (Hd dns Hin) as (col & -> & _). by eexists. }
  2:{ destruct (Hd dns Hin) as (col' & Hcol' & Hlen). congruence. }
  cbn [app] in H1, H2.
  eexists _, lines1, lines2. unfold plot_results.
  rewrite (bind_returned get_results _ s r s eq_refl).
  rewrite (bind_returned _ _ _ _ _ H1), (bind_returned _ _ _ _ _ H2).
  unfold plt_plot. rewrite !length_map.
  rewrite !bool_decide_eq_true_2 by congruence.
  unfold plt_savefig_, bind, ret, perform, update_files, calls_since.
  cbn [world log files results fst snd].
  split; [reflexivity|]. split; [reflexivity|].
  split; [cbn [world log]; by rewrite drop_app_length|]. done.
Qed.

(** X9.  With a column for every configured site and DNS server,
    [plot_results] returns exactly when every plotted column is as long
    as the timestamp column; when one is not, [plt.plot] refuses it:
    [plot_results] raises [ValueError], has made no call and has saved no
    figure.  The port columns play no part. *)
Theorem plot_results_returns_iff_columns_match (s : State)
  (Hsites : forall site, site ∈ SITES cfg ->
              is_Some (site_latencies (results s) !! site))
  (Hdns : forall dns, dns ∈ DNS_SERVERS cfg ->
            is_Some (dns_times (results s) !! dns)) :
  (fst (plot_results E cfg s) = Returned tt <-> plottable (results s)) /\
  (~ plottable (results s) -> plot_results E cfg s = (Raised ValueError, s)).
Proof.
  set (r := results s) in *.
  assert (Hcases :
    (plottable r /\ fst (plot_results E cfg s) = Returned tt) \/
    (~ plottable r /\ plot_results E cfg s = (Raised ValueError, s))).
  { unfold plot_results.
    rewrite (bind_returned get_results _ s r s eq_refl).
    destruct (plot_lines_result (SITES cfg) (site_latencies r) (timestamp r)
                (fun site => site) [] s Hsites)
      as [(lines1 & H1 & _ & A1) | (H1 & site & col & Hin & Hcol & Hne)].
    2:{ right. split.
        - intros (Hs & _). destruct (Hs site Hin) as (col' & Hcol' & Hlen).
          congruence.
        - unfold bind at 1. by rewrite H1. }
    rewrite (bind_returned _ _ _ _ _ H1).
    destruct (plot_lines_result (DNS_SERVERS cfg) (dns_times r) (timestamp r)
                (fun dns => "DNS " +:+ dns) [] s Hdns)
      as [(lines2 & H2 & _ & A2) | (H2 & dns & col & Hin & Hcol & Hne)].
    2:{ right. split.
        - intros (_ & Hd & _). destruct (Hd dns Hin) as (col' & Hcol' & Hlen).
          congruence.
        - unfold bind at 1. by rewrite H2. }
    rewrite (bind_returned _ _ _ _ _ H2).
    unfold plt_plot. rewrite !length_map.
    destruct (decide (length (timestamp r) = length (download_speed r)))
      as [Hdl|Hdl].
    2:{ right. split; [intros (_ & _ & Hl & _); congruence|].
        unfold bind at 1. by rewrite bool_decide_eq_false_2. }
    rewrite (bool_decide_eq_true_2 _ Hdl).
    destruct (decide (length (timestamp r) = length (upload_speed r)))
      as [Hul|Hul].
    2:{ right. split; [intros (_ & _ & _ & Hl); congruence|].
        unfold bind at 1. cbn [ret]. unfold bind at 1.
        by rewrite bool_decide_eq_false_2. }
    rewrite (bool_decide_eq_true_2 _ Hul).
    left. split; [by split_and! |]. reflexivity. }
  destruct Hcases as [[Hp Hret] | [Hnp Hrun]].
  - split; [done|]. intros Hn. by destruct Hn.
  - split; [|done]. rewrite Hrun. cbn [fst]. split; [discriminate | done].
Qed.

End Figure.

(** The series of [sample_state] once a second timestamp has been
    appended: the columns are one entry short. *)
Definition ragged_state : State := {|
  results := set_timestamp
    ["2025-01-01 00:00:00"; "2025-01-01 00:03:00"] (results sample_state);
  world := initial_world 0
|}.

Lemma sample_state_plottable : plottable scenario_config (results sample_state).
Proof.
  split_and!; try reflexivity; intros x Hx.
  - apply list_elem_of_singleton in Hx as ->. by eexists.
  - by apply elem_of_nil in Hx.
Qed.

Lemma plot_results_draws_every_series_witness :
  exists s' lines1 lines2,
    plot_results calm_env scenario_config sample_state = (Returned tt, s') /\
    results s' = results sample_state /\
    calls_since sample_state s' = [plt_savefig "network_monitoring_plot.png"] /\
    files (world s') =
      <["network_monitoring_plot.png" := PngFile
          [ mk_panel "Latencia de Sitios Web (ms)" lines1;
            mk_panel "Tiempo de Resolución DNS (ms)" lines2;
            mk_panel "Velocidad de Red"
              [ mk_line "Descarga (Mbps)" ["2025-01-01 00:00:00"]
                  [Val 0%Q];
                mk_line "Subida (Mbps)" ["2025-01-01 00:00:00"]
                  [Val 1%Q] ] ]]> ∅ /\
    lines_of (SITES scenario_config) (site_latencies (results sample_state))
      ["2025-01-01 00:00:00"] (fun site => site) lines1 /\
    lines_of (DNS_SERVERS scenario_config) (dns_times (results sample_state))
      ["2025-01-01 00:00:00"] (fun dns => "DNS " +:+ dns) lines2.
Proof.
  exact (plot_results_draws_every_series calm_env scenario_config sample_state
           sample_state_plottable).
Defined.

Lemma plot_results_returns_iff_columns_match_witness :
  (fst (plot_results calm_env scenario_config ragged_state) = Returned tt <->
   plottable scenario_config (results ragged_state)) /\
  (~ plottable scenario_config (results ragged_state) ->
   plot_results calm_env scenario_config ragged_state =
     (Raised ValueError, ragged_state)).
Proof.
  apply (plot_results_returns_iff_columns_match calm_env scenario_config
           ragged_state).
  - intros site Hin. apply list_elem_of_singleton in Hin as ->. by eexists.
  - intros dns Hin. by apply elem_of_nil in Hin.
Defined.

(** ** The report at the end of a run *)

Section FinalReport.

Context (E : Env) (cfg : Config) (HC : LibraryContract E).
Context (Hsites : NoDup (SITES cfg)).
Context (Hdns : NoDup (DNS_SERVERS cfg)).
Context (Hports : NoDup (PORTS cfg)).
Context (Hcsv : OUTPUT_CSV cfg <> "network_monitoring_plot.png").






End FinalReport.



(** ** Runs that are cut short *)

Section Aborts.

Context (E : Env) (cfg : Config).

Lemma iteration_aborts s site rest e :
  SITES cfg = site :: rest ->
  get_answer E (S (S (length (log (world s))))) site = Raised e ->
  isinstance e RequestException = false ->
  exists s',
    iteration E cfg s = (Raised e, s') /\
    results s' =
      set_timestamp
        (timestamp (results s) ++
         [strftime (localtime E (now (world s) +
                                 delay E (length (log (world s)))))])
        (results s) /\
    files (world s') = files (world s) /\
    log (world s') =
      log (world s) ++ [datetime_now; time_time; requests_get site 5].
Proof.
  intros Hsite Hget Hforeign.
  unfold iteration, cycle. rewrite Hsite. cbn [for_each].
  unfold bind, py_datetime_now, get_results, set_results, check_site,
    try_except, bind, py_time_time, py_requests_get, perform, ret.
  cbn [world log now results files fst snd]. rewrite ?length_snoc.
  rewrite Hget. cbn [fst snd]. rewrite Hforeign.
  eexists. split; [reflexivity|]. cbn [world log now results files].
  split; [reflexivity|]. split; [reflexivity|].
  by rewrite <- !app_assoc.
Qed.

End Aborts.

(** X11.  An exception that [check_site] does not catch ends the run.
    If the budget allows a first cycle and the GET of the first site
    raises an exception [e] that is no [RequestException], [main] raises
    [e] after five calls: nothing is caught on the way up, no later probe
    runs, no report and no figure is written, and [results] is left with a
    timestamp that has no measurement in any column. *)
Theorem main_aborts_on_uncaught_exception
  (E : Env) (cfg : Config) (t0 : Q) (fuel : nat)
  (site : string) (rest : list string) (e : exn)
  (Hsite : SITES cfg = site :: rest)
  (Hbudget : (delay E 1 < inject_Z (DURATION cfg))%Q)
  (Hget : get_answer E 4 site = Raised e)
  (Hforeign : isinstance e RequestException = false) :
  exists s',
    main E cfg (S fuel) (initial_state cfg t0) = Some (Raised e, s') /\
    log (world s') =
      [time_time; time_time; datetime_now; time_time; requests_get site 5] /\
    files (world s') = ∅ /\
    length (timestamp (results s')) = 1%nat /\
    site_latencies (results s') = empty_columns (SITES cfg) /\
    dns_times (results s') = empty_columns (DNS_SERVERS cfg) /\
    port_status (results s') = empty_columns (PORTS cfg) /\
    download_speed (results s') = [] /\
    upload_speed (results s') = [].
Proof.
  unfold main, py_time_time, perform.
  cbn [initial_state initial_world world log now results length main_loop].
  unfold py_time_time, perform. cbn [world log now results length app].
  assert (Hlt : Qltb (t0 + delay E 0 + delay E 1 - (t0 + delay E 0))
                     (inject_Z (DURATION cfg)) = true).
  { apply Qltb_true. lra. }
  rewrite Hlt.
  match goal with
  | |- context [iteration E cfg ?s1] =>
      destruct (iteration_aborts E cfg s1 site rest e Hsite Hget Hforeign)
        as (s' & Hit & Hr & Hf & Hl)
  end.
  rewrite Hit. exists s'. split; [reflexivity|].
  cbn [world log files results] in Hr, Hf, Hl.
  rewrite Hl, Hf, Hr. done.
Qed.

(** Every GET is interrupted from the keyboard; calls take a second. *)
Definition interrupted_env : Env := {|
  delay := fun _ => 1%Q;
  localtime := clock_face;
  get_answer := fun _ _ => Raised KeyboardInterrupt;
  socket_answer := fun _ => Returned tt;
  gethostbyaddr_answer := fun _ _ => Returned tt;
  connect_ex_answer := fun _ _ _ => Returned 0;
  Speedtest_answer := fun _ => Returned tt;
  get_best_server_answer := fun _ => Returned tt;
  download_answer := fun _ => Returned 0%Q;
  upload_answer := fun _ => Returned 0%Q
|}.

Lemma main_aborts_on_uncaught_exception_witness :
  exists s',
    main interrupted_env source_config 1 (initial_state source_config 0) =
      Some (Raised KeyboardInterrupt, s') /\
    log (world s') =
      [time_time; time_time; datetime_now; time_time;
       requests_get "https://www.google.com" 5] /\
    files (world s') = ∅ /\
    length (timestamp (results s')) = 1%nat /\
    site_latencies (results s') = empty_columns (SITES source_config) /\
    dns_times (results s') = empty_columns (DNS_SERVERS source_config) /\
    port_status (results s') = empty_columns (PORTS source_config) /\
    download_speed (results s') = [] /\
    upload_speed (results s') = [].
Proof.
  apply (main_aborts_on_uncaught_exception interrupted_env source_config 0 0
           "https://www.google.com" (tail (SITES source_config))
           KeyboardInterrupt).
  - reflexivity.
  - reflexivity.
  - reflexivity.
  - reflexivity.
Defined.

(** X12.  When the second reading of the clock already shows the budget
    spent (any [DURATION] that is zero or negative, with calls that take
    no negative time), [main] returns after those two readings: no probe
    runs, [results] stays as initialised and no file is written, not even
    a report with the header alone. *)
Theorem main_without_budget_measures_nothing
  (E : Env) (cfg : Config) (t0 : Q) (fuel : nat)
  (Hbudget : (inject_Z (DURATION cfg) <= delay E 1)%Q) :
  exists s',
    main E cfg (S fuel) (initial_state cfg t0) = Some (Returned tt, s') /\
    log (world s') = [time_time; time_time] /\
    results s' = initial_results cfg /\
    files (world s') = ∅.
Proof.
  unfold main, py_time_time, perform.
  cbn [initial_state initial_world world log now results length main_loop].
  unfold py_time_time, perform. cbn [world log now results length app].
  assert (Hge : Qltb (t0 + delay E 0 + delay E 1 - (t0 + delay E 0))
                     (inject_Z (DURATION cfg)) = false).
  { apply Qltb_false. lra. }
  rewrite Hge. eexists. split; [reflexivity|]. done.
Qed.

(** The scenario of the specification with no budget at all. *)
Definition idle_config : Config := {|
  SITES := [ "https://example.com" ];
  DNS_SERVERS := [];
  PORTS := [];
  INTERVAL := 1;
  OUTPUT_CSV := "network_monitoring_report.csv";
  DURATION := 0
|}.

Lemma main_without_budget_measures_nothing_witness :
  exists s',
    main calm_env idle_config 1 (initial_state idle_config 0) =
      Some (Returned tt, s') /\
    log (world s') = [time_time; time_time] /\
    results s' = initial_results idle_config /\
    files (world s') = ∅.
Proof.
  apply (main_without_budget_measures_nothing calm_env idle_config 0 0).
  vm_compute. discriminate.
Defined.

(** ** The probes of one cycle *)




Section CycleProbes.

Context (E : Env) (cfg : Config) (HC : LibraryContract E).
Context (Hsites : NoDup (SITES cfg)).
Context (Hdns : NoDup (DNS_SERVERS cfg)).
Context (Hports : NoDup (PORTS cfg)).

Ltac call_step :=
  apply wp_bind; apply wp_perform; [reflexivity|]; cbn beta iota.

Ltac probe_done :=
  apply wp_ret; repeat split; try reflexivity; eexists; split;
  [reflexivity | cbn; eauto].










End CycleProbes.



